(** * pm4py conformance front end: a shallow embedding

    The module [pm4py/conformance.py] is glue code: it inspects the runtime
    type of its arguments, normalises them and forwards them to engines
    (token-based replay, alignments, footprints, ...) that live elsewhere.
    The embedding therefore has three layers:

    - a small universe of Python values with their runtime classes,
      truthiness, subscripting and iteration ([Py]);
    - a writer/error monad that records every call made to a collaborator
      outside the two modelled files, together with an oracle [ext] that
      says what such a call returns or raises ([Eff]);
    - the functions of [conformance.py] and of
      [util/lp/variants/scipy_solver.py], transcribed statement by
      statement over these two layers. *)

From Stdlib Require Import List String Ascii Bool ZArith QArith Qround Qabs Lia Lqa Arith.
Import ListNotations.
Local Open Scope string_scope.
Local Open Scope Z_scope.
Local Open Scope list_scope.

Set Implicit Arguments.

(* ================================================================== *)
(** ** Python values *)
(* ================================================================== *)

Module Py.

(** Runtime classes that the code tests with [type(x) is C],
    [type(x) in [...]] or [isinstance(x, C)].  [CSub name base] is a
    user-defined class that derives from [base]. *)
Inductive pyclass : Type :=
| CNoneType | CBool | CInt | CFloat | CStr | CEnum
| CList | CTuple | CSet | CNdarray
| CDict | CCounter
| CDataFrame | CEventLog | CEventStream | CTrace | CEvent
| CPetriNet | CTransition | CMarking | CProcessTree
| COptimizeResult | CObject
| CSub (name : string) (base : pyclass).

Fixpoint class_eqb (c d : pyclass) : bool :=
  match c, d with
  | CNoneType, CNoneType | CBool, CBool | CInt, CInt | CFloat, CFloat
  | CStr, CStr | CEnum, CEnum | CList, CList | CTuple, CTuple
  | CSet, CSet | CNdarray, CNdarray | CDict, CDict | CCounter, CCounter
  | CDataFrame, CDataFrame | CEventLog, CEventLog
  | CEventStream, CEventStream | CTrace, CTrace | CEvent, CEvent
  | CPetriNet, CPetriNet | CTransition, CTransition | CMarking, CMarking
  | CProcessTree, CProcessTree | COptimizeResult, COptimizeResult
  | CObject, CObject => true
  | CSub n b, CSub m b' => String.eqb n m && class_eqb b b'
  | _, _ => false
  end.

(** [issubclass c d]: [d] is found on the chain of bases of [c].  [bool]
    derives from [int], [collections.Counter] from [dict], a user class
    from its base, and every class from [object]. *)
Fixpoint issubclass (c d : pyclass) : bool :=
  class_eqb c d ||
  match c with
  | CSub _ b => issubclass b d
  | CObject => false
  | CBool => class_eqb CInt d || class_eqb CObject d
  | CCounter => class_eqb CDict d || class_eqb CObject d
  | _ => class_eqb CObject d
  end.

(** A proper subclass: a different class one of whose ancestors is [d]. *)
Definition proper_subclass (c d : pyclass) : bool :=
  negb (class_eqb c d) && issubclass c d.

(** Python floats: the finite ones are rationals, plus the three special
    values.  Only comparisons and [round] are applied to them here. *)
Inductive pyfloat : Type :=
| Fin (q : Q)
| NaN
| Inf (negative : bool).

Definition float_eqb (f g : pyfloat) : bool :=
  match f, g with
  | Fin p, Fin q => Qeq_bool p q
  | Inf a, Inf b => Bool.eqb a b
  | _, _ => false
  end.

#[warnings="-register-all"]
Inductive pyval : Type :=
| VNone
| VBool (b : bool)
| VInt (z : Z)
| VFloat (f : pyfloat)
| VStr (s : string)
| VEnum (member : string)
    (* a member of one of the [Variants] enumerations of the engines *)
| VSeq (c : pyclass) (items : list pyval)
    (* list, tuple, set, ndarray, EventLog, EventStream, Trace, ... *)
| VMap (c : pyclass) (items : list (pyval * pyval))
    (* dict, Counter, Event *)
| VObj (c : pyclass) (oid : nat) (attrs : list (string * pyval)).
    (* any other object, with its identity and its attributes *)

Definition type_of (v : pyval) : pyclass :=
  match v with
  | VNone => CNoneType
  | VBool _ => CBool
  | VInt _ => CInt
  | VFloat _ => CFloat
  | VStr _ => CStr
  | VEnum _ => CEnum
  | VSeq c _ => c
  | VMap c _ => c
  | VObj c _ _ => c
  end.

(** [type(v) is c] *)
Definition type_is (v : pyval) (c : pyclass) : bool := class_eqb (type_of v) c.

(** [type(v) in cs] *)
Definition type_in (v : pyval) (cs : list pyclass) : bool :=
  existsb (class_eqb (type_of v)) cs.

(** [isinstance(v, c)] *)
Definition isinstance (v : pyval) (c : pyclass) : bool := issubclass (type_of v) c.

(** Exceptions. *)
Inductive exc_class : Type :=
| EException | ETypeError | EValueError | ELookupError | EKeyError
| EIndexError | EAttributeError | EArithmeticError | EOverflowError
| EOther (name : string).

Inductive pyexc : Type :=
| Exc (cls : exc_class) (args : list pyval).

Definition exc_cls (e : pyexc) : exc_class := let 'Exc c _ := e in c.

(** [isinstance(e, TypeError)]: only [TypeError] itself among the classes
    raised by the modelled code (none of the others derives from it). *)
Definition is_TypeError (e : pyexc) : bool :=
  match exc_cls e with ETypeError => true | _ => false end.

Inductive outcome (A : Type) : Type :=
| Ok (a : A)
| Raise (e : pyexc).
Arguments Raise {A} e.

(** *** Truthiness, [bool(v)] *)
Definition truthy (v : pyval) : bool :=
  match v with
  | VNone => false
  | VBool b => b
  | VInt z => negb (z =? 0)
  | VFloat f => negb (float_eqb f (Fin 0))
  | VStr s => negb (String.eqb s "")
  | VEnum _ => true
  | VSeq _ items => match items with [] => false | _ => true end
  | VMap _ items => match items with [] => false | _ => true end
  | VObj _ _ _ => true
  end.

(** *** Numbers and [==] against a number *)
Definition as_number (v : pyval) : option pyfloat :=
  match v with
  | VBool b => Some (Fin (if b then 1 else 0))
  | VInt z => Some (Fin (inject_Z z))
  | VFloat f => Some f
  | _ => None
  end.

(** *** Hashable values and their equality (membership in a [set]) *)
Fixpoint hashable (v : pyval) : bool :=
  match v with
  | VNone | VBool _ | VInt _ | VFloat _ | VStr _ | VEnum _ => true
  | VSeq c items =>
      issubclass c CTuple &&
      (fix all (l : list pyval) : bool :=
         match l with [] => true | x :: l' => hashable x && all l' end) items
  | VMap _ _ => false
  | VObj _ _ _ => true
  end.

(** [v == w] for two hashable values: numbers by value (a NaN differs
    from every number, itself included), strings by content, tuples
    component-wise, other objects by identity. *)
Fixpoint hash_eqb (v w : pyval) {struct v} : bool :=
  match v, w with
  | VNone, VNone => true
  | VStr s, VStr t => String.eqb s t
  | VEnum s, VEnum t => String.eqb s t
  | VSeq _ l, VSeq _ m =>
      (fix go (l m : list pyval) {struct l} : bool :=
         match l, m with
         | [], [] => true
         | x :: l', y :: m' => hash_eqb x y && go l' m'
         | _, _ => false
         end) l m
  | VObj _ i _, VObj _ j _ => Nat.eqb i j
  | _, _ =>
      match as_number v, as_number w with
      | Some f, Some g => float_eqb f g
      | _, _ => false
      end
  end.

(** A NaN, or a tuple with a NaN inside.  For such a value [==] does not
    decide membership in a set: the lookup also finds the very same
    object, and the values of the model carry no identity for floats. *)
Fixpoint has_nan (v : pyval) : bool :=
  match v with
  | VFloat NaN => true
  | VSeq _ items =>
      (fix any (l : list pyval) : bool :=
         match l with [] => false | x :: l' => has_nan x || any l' end) items
  | _ => false
  end.

(** The name of a class, as error messages show it. *)
Definition class_name (c : pyclass) : string :=
  match c with
  | CNoneType => "NoneType" | CBool => "bool" | CInt => "int"
  | CFloat => "float" | CStr => "str" | CEnum => "Variants"
  | CList => "list" | CTuple => "tuple" | CSet => "set"
  | CNdarray => "numpy.ndarray"
  | CDict => "dict" | CCounter => "Counter"
  | CDataFrame => "DataFrame" | CEventLog => "EventLog"
  | CEventStream => "EventStream" | CTrace => "Trace" | CEvent => "Event"
  | CPetriNet => "PetriNet" | CTransition => "Transition"
  | CMarking => "Marking" | CProcessTree => "ProcessTree"
  | COptimizeResult => "OptimizeResult" | CObject => "object"
  | CSub name _ => name
  end.

(** The class of the first component that makes a value unhashable:
    the value itself, or a component of a tuple. *)
Fixpoint unhashable_part (v : pyval) : option pyclass :=
  match v with
  | VSeq c items =>
      if issubclass c CTuple then
        (fix first (l : list pyval) : option pyclass :=
           match l with
           | [] => None
           | x :: l' =>
               match unhashable_part x with
               | Some c' => Some c'
               | None => first l'
               end
           end) items
      else Some c
  | VMap c _ => Some c
  | _ => None
  end.

(** [TypeError("unhashable type: 'list'")] and the like, raised by
    [hash(v)]. *)
Definition unhashable_error (v : pyval) : pyexc :=
  let c := match unhashable_part v with Some c => c | None => type_of v end in
  Exc ETypeError
    [VStr (String.append "unhashable type: '" (String.append (class_name c) "'"))].

(** *** Dictionaries with string keys *)
Definition key_is (k : string) (kv : pyval * pyval) : bool :=
  match fst kv with VStr s => String.eqb s k | _ => false end.

Definition dict_get (k : string) (items : list (pyval * pyval)) : option pyval :=
  option_map snd (find (key_is k) items).

(** [d[k] = v] on the item list: an existing key keeps its position. *)
Fixpoint dict_set (k : string) (v : pyval) (items : list (pyval * pyval))
  : list (pyval * pyval) :=
  match items with
  | [] => [(VStr k, v)]
  | kv :: rest =>
      if key_is k kv then (fst kv, v) :: rest else kv :: dict_set k v rest
  end.

(** [v[k]] for a string key [k].  A missing key raises [KeyError] on a
    [dict] or an [Event]; a [Counter] counts it as 0.  A class derived
    from one of them is taken to keep the [__getitem__] and [__missing__]
    of its base. *)
Definition getitem_str (v : pyval) (k : string) : outcome pyval :=
  match v with
  | VMap c items =>
      match dict_get k items with
      | Some x => Ok x
      | None =>
          if issubclass c CCounter then Ok (VInt 0)
          else Raise (Exc EKeyError [VStr k])
      end
  | _ => Raise (Exc ETypeError [VStr "indices must be integers or slices, not str"])
  end.

(** [v[k] = x] for a string key [k]. *)
Definition setitem_str (v : pyval) (k : string) (x : pyval) : outcome pyval :=
  match v with
  | VMap c items => Ok (VMap c (dict_set k x items))
  | _ => Raise (Exc ETypeError [VStr "object does not support item assignment"])
  end.

(** [v[i]] for a natural index [i] ([v[0]], [v[1]], [v[2]] in the code). *)
Definition getitem_nat (v : pyval) (i : nat) : outcome pyval :=
  match v with
  | VSeq _ items =>
      match nth_error items i with
      | Some x => Ok x
      | None => Raise (Exc EIndexError [VStr "index out of range"])
      end
  | VMap c items =>
      match find (fun kv => hash_eqb (fst kv) (VInt (Z.of_nat i))) items with
      | Some kv => Ok (snd kv)
      | None =>
          if issubclass c CCounter then Ok (VInt 0)
          else Raise (Exc EKeyError [VInt (Z.of_nat i)])
      end
  | _ => Raise (Exc ETypeError [VStr "object is not subscriptable"])
  end.

(** [v.name] *)
Definition getattr (v : pyval) (name : string) : outcome pyval :=
  match v with
  | VObj _ _ attrs =>
      match find (fun kv => String.eqb (fst kv) name) attrs with
      | Some kv => Ok (snd kv)
      | None => Raise (Exc EAttributeError [VStr name])
      end
  | _ => Raise (Exc EAttributeError [VStr name])
  end.

(** The characters of a string, each as a one-character string. *)
Fixpoint chars (s : string) : list pyval :=
  match s with
  | EmptyString => []
  | String a s' => VStr (String a EmptyString) :: chars s'
  end.

(** [for x in v]: the items in order. *)
Definition py_iter (v : pyval) : outcome (list pyval) :=
  match v with
  | VSeq _ items => Ok items
  | VMap _ items => Ok (map fst items)
  | VStr s => Ok (chars s)
  | _ => Raise (Exc ETypeError [VStr "object is not iterable"])
  end.

(** [a, b, c = v] *)
Definition unpack3 (v : pyval) : outcome (pyval * pyval * pyval) :=
  match py_iter v with
  | Ok [a; b; c] => Ok (a, b, c)
  | Ok _ => Raise (Exc EValueError [VStr "wrong number of values to unpack"])
  | Raise e => Raise e
  end.

(** [round(v)] with one argument: the nearest integer, ties to the even
    one; [round] of a NaN or of an infinity raises. *)
Definition round_half_even (q : Q) : Z :=
  let f := Qfloor q in
  match Qcompare (q - inject_Z f) (1 # 2) with
  | Lt => f
  | Gt => f + 1
  | Eq => if Z.even f then f else f + 1
  end.

Definition py_round (v : pyval) : outcome pyval :=
  match v with
  | VBool b => Ok (VInt (if b then 1 else 0))
  | VInt z => Ok (VInt z)
  | VFloat (Fin q) => Ok (VInt (round_half_even q))
  | VFloat NaN => Raise (Exc EValueError [VStr "cannot convert float NaN to integer"])
  | VFloat (Inf _) =>
      Raise (Exc EOverflowError [VStr "cannot convert float infinity to integer"])
  | _ => Raise (Exc ETypeError [VStr "type doesn't define __round__ method"])
  end.

End Py.

(* ================================================================== *)
(** ** Calls to collaborators and the effect monad *)
(* ================================================================== *)

Module Eff.
Import Py.

(** The functions that [conformance.py] and [scipy_solver.py] import from
    other modules.  None of them is defined in the two modelled files. *)
Inductive extfn : Type :=
| event_log_deprecation_warning     (* pm4py.utils.__event_log_deprecation_warning *)
| get_properties                    (* pm4py.utils.get_properties *)
| check_is_pandas_dataframe         (* pm4py.util.pandas_utils *)
| check_pandas_dataframe_columns    (* pm4py.util.pandas_utils *)
| token_replay_apply                (* algo.conformance.tokenreplay.algorithm.apply *)
| alignments_apply                  (* algo.conformance.alignments.petri_net.algorithm.apply *)
| alignments_apply_multiprocessing  (* ... .apply_multiprocessing *)
| dfg_alignment_apply               (* algo.conformance.alignments.dfg.algorithm.apply *)
| search_graph_pt_apply             (* ...alignments.process_tree.variants.search_graph_pt.apply *)
| search_graph_pt_apply_multiprocessing
| replay_fitness_apply              (* algo.evaluation.replay_fitness.algorithm.apply *)
| precision_evaluator_apply         (* algo.evaluation.precision.algorithm.apply *)
| discover_footprints               (* pm4py.discover_footprints *)
| footprints_conformance_apply      (* algo.conformance.footprints.algorithm.apply *)
| evaluation_fp_fitness             (* algo.conformance.footprints.util.evaluation.fp_fitness *)
| evaluation_fp_precision           (* ... .fp_precision *)
| convert_to_petri_net              (* pm4py.convert.convert_to_petri_net *)
| convert_to_process_tree           (* pm4py.convert.convert_to_process_tree *)
| get_activities_from_variant       (* pm4py.util.variants_util *)
| temporal_profile_conformance_apply (* algo.conformance.temporal_profile.algorithm.apply *)
| log_skeleton_conformance_apply    (* algo.conformance.log_skeleton.algorithm.apply *)
| exec_utils_get_param_value        (* pm4py.util.exec_utils.get_param_value *)
| linprog                           (* scipy.optimize.linprog *)
| object_eq                         (* the __eq__ method of an object whose class
                                       is defined outside the two files *)
| same_object.                      (* the identity test of a set lookup, on
                                       objects whose identity the values of the
                                       model do not record (NaN floats) *)

Record call : Type := Call {
  fn : extfn;
  args : list pyval;                 (* positional arguments *)
  kwargs : list (string * pyval)     (* keyword arguments, as written *)
}.

(** What each collaborator returns or raises on each call.  The
    collaborators are taken to be deterministic: the outcome of a call
    depends on the function and on its arguments only. *)
Class World : Type := ext : call -> outcome pyval.

(** A computation yields a value or an exception, and the list of the
    calls to collaborators it made, in order. *)
Definition M (A : Type) : Type := (outcome A * list call)%type.

Definition ret {A} (a : A) : M A := (Ok a, []).
Definition raise {A} (e : pyexc) : M A := (Raise e, []).
Definition lift {A} (o : outcome A) : M A := (o, []).

Definition bind {A B} (m : M A) (k : A -> M B) : M B :=
  match m with
  | (Ok a, t) => let (r, t') := k a in (r, t ++ t')
  | (Raise e, t) => (Raise e, t)
  end.

(** [try: m except: h] with a bare [except]. *)
Definition try_except {A} (m : M A) (h : pyexc -> M A) : M A :=
  match m with
  | (Ok a, t) => (Ok a, t)
  | (Raise e, t) => let (r, t') := h e in (r, t ++ t')
  end.

Definition invoke `{World} (f : extfn) (a : list pyval)
    (kw : list (string * pyval)) : M pyval :=
  let c := Call f a kw in (ext c, [c]).

Definition result {A} (m : M A) : outcome A := fst m.
Definition calls {A} (m : M A) : list call := snd m.

(** The collaborators invoked by a computation. *)
Definition invoked {A} (f : extfn) (m : M A) : Prop :=
  exists c, In c (calls m) /\ fn c = f.

Fixpoint mapM {A B} (f : A -> M B) (l : list A) : M (list B) :=
  match l with
  | [] => ret []
  | x :: l' =>
      bind (f x) (fun y => bind (mapM f l') (fun ys => ret (y :: ys)))
  end.

(** [v == x] for a float literal [x].  Numbers compare by value and
    give a [bool]; [None], strings, lists, tuples, sets, dicts and
    Counters differ from every float; for any other object the result is
    whatever its [__eq__] returns (an array for an [ndarray]). *)
Definition py_eq_float `{World} (v : pyval) (x : Q) : M pyval :=
  match as_number v with
  | Some f => ret (VBool (float_eqb f (Fin x)))
  | None =>
      match v with
      | VNone | VStr _ => ret (VBool false)
      | VSeq c _ =>
          if class_eqb c CList || class_eqb c CTuple || class_eqb c CSet
          then ret (VBool false)
          else invoke object_eq [v; VFloat (Fin x)] []
      | VMap c _ =>
          if class_eqb c CDict || class_eqb c CCounter
          then ret (VBool false)
          else invoke object_eq [v; VFloat (Fin x)] []
      | _ => invoke object_eq [v; VFloat (Fin x)] []
      end
  end.

(** [s.difference(t)] for two sets kept as lists: the elements of [s]
    that the lookup does not find in [t].  The lookup finds an element
    that is [==] to one of [t]; for an element with a NaN inside, when
    [t] has such elements too, it may still find the very same object,
    and the world is asked ([i] is the position of the element in [s]). *)
Fixpoint set_difference_from `{World} (i : nat) (s whole t : list pyval)
  : M (list pyval) :=
  match s with
  | [] => ret []
  | a :: s' =>
      bind (if existsb (hash_eqb a) t then ret true
            else if has_nan a && existsb has_nan t then
              bind (invoke same_object
                      [VInt (Z.of_nat i); VSeq CSet whole; VSeq CSet t] [])
                (fun r => ret (truthy r))
            else ret false)
        (fun found =>
           bind (set_difference_from (S i) s' whole t)
             (fun rest => ret (if found : bool then rest else a :: rest)))
  end.

Definition set_difference `{World} (s t : list pyval) : M (list pyval) :=
  set_difference_from 0 s s t.

End Eff.

Declare Scope py_scope.
Delimit Scope py_scope with py.
Notation "x <- m ;; k" := (Eff.bind m (fun x => k))
  (at level 61, m at next level, right associativity) : py_scope.
Notation "' pat <- m ;; k" := (Eff.bind m (fun x => match x with pat => k end))
  (at level 61, pat pattern, m at next level, right associativity) : py_scope.
Notation "m ;; k" := (Eff.bind m (fun _ => k))
  (at level 61, right associativity) : py_scope.

(* ================================================================== *)
(** ** [pm4py/conformance.py] *)
(* ================================================================== *)

(** The functions are transcribed in the order of the file.  The
    [@deprecation.deprecated] decorators only emit a warning and are left
    out; the [import] statements inside the bodies are left out too. *)
Module conformance.
Import Py Eff.
Local Open Scope py_scope.

Section Functions.
Context `{World}.

(** Defaults of the keyword parameters, as written in the signatures. *)
Definition DEFAULT_ACTIVITY_KEY : string := "concept:name".
Definition DEFAULT_TIMESTAMP_KEY : string := "time:timestamp".
Definition DEFAULT_CASE_ID_KEY : string := "case:concept:name".

Definition key_kwargs (activity_key timestamp_key case_id_key : string)
  : list (string * pyval) :=
  [("activity_key", VStr activity_key);
   ("timestamp_key", VStr timestamp_key);
   ("case_id_key", VStr case_id_key)].

Definition LOG_TYPES : list pyclass := [CDataFrame; CEventLog; CEventStream].

Definition LOG_SHAPE_ERROR : pyexc :=
  Exc EException [VStr "the method can be applied only to a traditional event log!"].

(** The three statements every log-taking entry point starts with:
<<
    if type(log) not in [pd.DataFrame, EventLog, EventStream]: raise Exception(...)
    __event_log_deprecation_warning(log)
    if check_is_pandas_dataframe(log):
        check_pandas_dataframe_columns(log, activity_key=..., timestamp_key=..., case_id_key=...)
>> *)
Definition log_prelude (log : pyval)
    (activity_key timestamp_key case_id_key : string) : M unit :=
  (if negb (type_in log LOG_TYPES) then raise LOG_SHAPE_ERROR else ret tt) ;;
  invoke event_log_deprecation_warning [log] [] ;;
  is_df <- invoke check_is_pandas_dataframe [log] [] ;;
  if truthy is_df then
    invoke check_pandas_dataframe_columns [log]
      (key_kwargs activity_key timestamp_key case_id_key) ;;
    ret tt
  else ret tt.

Definition conformance_diagnostics_token_based_replay
    (log petri_net initial_marking final_marking : pyval)
    (activity_key timestamp_key case_id_key : string) : M pyval :=
  log_prelude log activity_key timestamp_key case_id_key ;;
  properties <- invoke get_properties [log]
                  (key_kwargs activity_key timestamp_key case_id_key) ;;
  invoke token_replay_apply [log; petri_net; initial_marking; final_marking]
    [("parameters", properties)].

Definition conformance_diagnostics_alignments
    (log : pyval) (args : list pyval) (multi_processing : bool)
    (activity_key timestamp_key case_id_key : string) : M pyval :=
  log_prelude log activity_key timestamp_key case_id_key ;;
  properties <- invoke get_properties [log]
                  (key_kwargs activity_key timestamp_key case_id_key) ;;
  let try_to_convert : M pyval :=
    (* try to convert to Petri net *)
    converted <- invoke convert_to_petri_net args [] ;;
    '(net, im, fm) <- lift (unpack3 converted) ;;
    if multi_processing then
      invoke alignments_apply_multiprocessing [log; net; im; fm]
        [("parameters", properties)]
    else
      invoke alignments_apply [log; net; im; fm] [("parameters", properties)]
  in
  match args with
  | [a0; a1; a2] =>
      if type_is a0 CPetriNet then
        (* Petri net alignments *)
        if multi_processing then
          invoke alignments_apply_multiprocessing [log; a0; a1; a2]
            [("parameters", properties)]
        else
          invoke alignments_apply [log; a0; a1; a2] [("parameters", properties)]
      else if type_is a0 CDict || type_is a0 CCounter then
        (* DFG alignments *)
        invoke dfg_alignment_apply [log; a0; a1; a2] [("parameters", properties)]
      else try_to_convert
  | [a0] =>
      if type_is a0 CProcessTree then
        (* process tree alignments *)
        if multi_processing then
          invoke search_graph_pt_apply_multiprocessing [log; a0]
            [("parameters", properties)]
        else
          invoke search_graph_pt_apply [log; a0] [("parameters", properties)]
      else try_to_convert
  | _ => try_to_convert
  end.

Definition fitness_token_based_replay
    (log petri_net initial_marking final_marking : pyval)
    (activity_key timestamp_key case_id_key : string) : M pyval :=
  log_prelude log activity_key timestamp_key case_id_key ;;
  properties <- invoke get_properties [log]
                  (key_kwargs activity_key timestamp_key case_id_key) ;;
  invoke replay_fitness_apply [log; petri_net; initial_marking; final_marking]
    [("variant", VEnum "replay_fitness.Variants.TOKEN_BASED");
     ("parameters", properties)].

Definition fitness_alignments
    (log petri_net initial_marking final_marking : pyval)
    (multi_processing : bool)
    (activity_key timestamp_key case_id_key : string) : M pyval :=
  log_prelude log activity_key timestamp_key case_id_key ;;
  parameters <- invoke get_properties [log]
                  (key_kwargs activity_key timestamp_key case_id_key) ;;
  parameters <- lift (setitem_str parameters "multiprocessing" (VBool multi_processing)) ;;
  invoke replay_fitness_apply [log; petri_net; initial_marking; final_marking]
    [("variant", VEnum "replay_fitness.Variants.ALIGNMENT_BASED");
     ("parameters", parameters)].

Definition precision_token_based_replay
    (log petri_net initial_marking final_marking : pyval)
    (activity_key timestamp_key case_id_key : string) : M pyval :=
  log_prelude log activity_key timestamp_key case_id_key ;;
  properties <- invoke get_properties [log]
                  (key_kwargs activity_key timestamp_key case_id_key) ;;
  invoke precision_evaluator_apply [log; petri_net; initial_marking; final_marking]
    [("variant", VEnum "precision_evaluator.Variants.ETCONFORMANCE_TOKEN");
     ("parameters", properties)].

Definition precision_alignments
    (log petri_net initial_marking final_marking : pyval)
    (multi_processing : bool)
    (activity_key timestamp_key case_id_key : string) : M pyval :=
  log_prelude log activity_key timestamp_key case_id_key ;;
  parameters <- invoke get_properties [log]
                  (key_kwargs activity_key timestamp_key case_id_key) ;;
  parameters <- lift (setitem_str parameters "multiprocessing" (VBool multi_processing)) ;;
  invoke precision_evaluator_apply [log; petri_net; initial_marking; final_marking]
    [("variant", VEnum "precision_evaluator.Variants.ALIGN_ETCONFORMANCE");
     ("parameters", parameters)].

(** [__convert_to_fp], applied to the tuple [args] of its positional
    arguments.  The
    [while] loop peels one-element tuples, so the recursion is on the
    nesting of the value. *)
Fixpoint __convert_to_fp (args : pyval) : M pyval :=
  let after_loop : M pyval :=
    if type_is args CList || type_is args CDict then ret args
    else invoke discover_footprints [args] []
  in
  match args with
  | VSeq c items =>
      if class_eqb c CTuple then
        match items with
        | [a] => __convert_to_fp a
        | _ => invoke discover_footprints items []
        end
      else after_loop
  | _ => after_loop
  end.

Definition conformance_diagnostics_footprints (args : list pyval) : M pyval :=
  match args with
  | [] => raise (Exc EIndexError [VStr "tuple index out of range"])
  | a0 :: rest =>
      fp1 <- __convert_to_fp (VSeq CTuple [a0]) ;;
      fp2 <- __convert_to_fp (VSeq CTuple [VSeq CTuple rest]) ;;
      if isinstance fp1 CList then
        invoke footprints_conformance_apply [fp1; fp2]
          [("variant", VEnum "footprints_conformance.Variants.TRACE_EXTENSIVE")]
      else
        invoke footprints_conformance_apply [fp1; fp2]
          [("variant", VEnum "footprints_conformance.Variants.LOG_EXTENSIVE")]
  end.

Definition fitness_footprints (args : list pyval) : M pyval :=
  fp_conf <- conformance_diagnostics_footprints args ;;
  match args with
  | [] => raise (Exc EIndexError [VStr "tuple index out of range"])
  | a0 :: rest =>
      fp1 <- __convert_to_fp (VSeq CTuple [a0]) ;;
      fp2 <- __convert_to_fp (VSeq CTuple [VSeq CTuple rest]) ;;
      invoke evaluation_fp_fitness [fp1; fp2; fp_conf] []
  end.

Definition precision_footprints (args : list pyval) : M pyval :=
  match args with
  | [] => raise (Exc EIndexError [VStr "tuple index out of range"])
  | a0 :: rest =>
      fp1 <- __convert_to_fp (VSeq CTuple [a0]) ;;
      fp2 <- __convert_to_fp (VSeq CTuple [VSeq CTuple rest]) ;;
      invoke evaluation_fp_precision [fp1; fp2] []
  end.

(** [log = EventLog(); log.append(trace)] *)
Definition single_trace_log (trace : pyval) : pyval := VSeq CEventLog [trace].

Definition __check_is_fit_process_tree (trace tree : pyval) : M pyval :=
  invoke event_log_deprecation_warning [trace] [] ;;
  let log := single_trace_log trace in
  fp_tree <- invoke discover_footprints [tree] [] ;;
  fp_log <- invoke discover_footprints [log] [] ;;
  fp_conf <- conformance_diagnostics_footprints [fp_log; fp_tree] ;;
  fp_conf_res <- lift (getitem_nat fp_conf 0) ;;
  (* CHECK 1) if footprints already say is not fit, then return False *)
  is_footprints_fit <- lift (getitem_str fp_conf_res "is_footprints_fit") ;;
  if negb (truthy is_footprints_fit) then ret (VBool false)
  else
    converted <- invoke convert_to_petri_net [tree] [] ;;
    '(net, im, fm) <- lift (unpack3 converted) ;;
    tbr_conf <- conformance_diagnostics_token_based_replay log net im fm
                  DEFAULT_ACTIVITY_KEY DEFAULT_TIMESTAMP_KEY DEFAULT_CASE_ID_KEY ;;
    tbr_conf_res <- lift (getitem_nat tbr_conf 0) ;;
    (* CHECK 2) if TBR says that is fit, then return True *)
    trace_is_fit <- lift (getitem_str tbr_conf_res "trace_is_fit") ;;
    if truthy trace_is_fit then ret (VBool true)
    else
      (* CHECK 3) alignments definitely say if the trace is fit or not *)
      align_conf <- conformance_diagnostics_alignments log [tree] false
                      DEFAULT_ACTIVITY_KEY DEFAULT_TIMESTAMP_KEY DEFAULT_CASE_ID_KEY ;;
      align_conf_res <- lift (getitem_nat align_conf 0) ;;
      fitness <- lift (getitem_str align_conf_res "fitness") ;;
      py_eq_float fitness 1.

(** [set(...)] of already computed elements: every element must be
    hashable.  The set is kept as the list of its elements; only
    membership and emptiness are observed below. *)
Definition make_set (elements : list pyval) : outcome (list pyval) :=
  match find (fun v => negb (hashable v)) elements with
  | None => Ok elements
  | Some v => Raise (unhashable_error v)
  end.

(** [set(trans.label for trans in net.transitions if trans.label is not None)]:
    the generator is consumed one transition at a time. *)
Fixpoint collect_labels (transitions : list pyval) : outcome (list pyval) :=
  match transitions with
  | [] => Ok []
  | trans :: rest =>
      match getattr trans "label" with
      | Raise e => Raise e
      | Ok VNone => collect_labels rest
      | Ok label =>
          if hashable label then
            match collect_labels rest with
            | Ok labels => Ok (label :: labels)
            | Raise e => Raise e
            end
          else Raise (unhashable_error label)
      end
  end.

Definition model_activities (net : pyval) : outcome (list pyval) :=
  match getattr net "transitions" with
  | Raise e => Raise e
  | Ok transitions =>
      match py_iter transitions with
      | Raise e => Raise e
      | Ok ts => collect_labels ts
      end
  end.

(** [[x[activity_key] for x in trace]] *)
Fixpoint collect_activities (activity_key : string) (events : list pyval)
  : outcome (list pyval) :=
  match events with
  | [] => Ok []
  | x :: rest =>
      match getitem_str x activity_key with
      | Raise e => Raise e
      | Ok a =>
          match collect_activities activity_key rest with
          | Ok acts => Ok (a :: acts)
          | Raise e => Raise e
          end
      end
  end.

Definition trace_activities (trace : pyval) (activity_key : string)
  : outcome (list pyval) :=
  match py_iter trace with
  | Raise e => Raise e
  | Ok events =>
      match collect_activities activity_key events with
      | Raise e => Raise e
      | Ok acts => make_set acts
      end
  end.

Definition __check_is_fit_petri_net (trace net im fm : pyval)
    (activity_key : string) : M pyval :=
  invoke event_log_deprecation_warning [trace] [] ;;
  (* avoid checking footprints on Petri net (they are too slow) *)
  activities_model <- lift (model_activities net) ;;
  activities_trace <- lift (trace_activities trace activity_key) ;;
  diff <- set_difference activities_trace activities_model ;;
  if truthy (VSeq CSet diff) then
    (* CHECK 1) there are activities in the trace that are not in the model *)
    ret (VBool false)
  else
    let log := single_trace_log trace in
    tbr_conf <- conformance_diagnostics_token_based_replay log net im fm
                  DEFAULT_ACTIVITY_KEY DEFAULT_TIMESTAMP_KEY DEFAULT_CASE_ID_KEY ;;
    tbr_conf_res <- lift (getitem_nat tbr_conf 0) ;;
    (* CHECK 2) if TBR says that is fit, then return True *)
    trace_is_fit <- lift (getitem_str tbr_conf_res "trace_is_fit") ;;
    if truthy trace_is_fit then ret (VBool true)
    else
      (* CHECK 3) alignments definitely say if the trace is fit or not *)
      align_conf <- conformance_diagnostics_alignments log [net; im; fm] false
                      DEFAULT_ACTIVITY_KEY DEFAULT_TIMESTAMP_KEY DEFAULT_CASE_ID_KEY ;;
      align_conf_res <- lift (getitem_nat align_conf 0) ;;
      fitness <- lift (getitem_str align_conf_res "fitness") ;;
      py_eq_float fitness 1.

(** [trace = Trace(); for act in activities: trace.append(Event({activity_key: act}))] *)
Definition promote_variant (activity_key : string) (activities : list pyval)
  : pyval :=
  VSeq CTrace
    (fold_left (fun events act => events ++ [VMap CEvent [(VStr activity_key, act)]])
       activities []).

Definition check_is_fitting (args : list pyval) (activity_key : string)
  : M pyval :=
  match args with
  | [] => raise (Exc EIndexError [VStr "tuple index out of range"])
  | trace :: model =>
      model <- try_except
                 (invoke convert_to_process_tree model [])
                 (fun _ =>
                    (* the model cannot be expressed as a process tree,
                       let's say if at least can be expressed as a Petri net *)
                    invoke convert_to_petri_net model []) ;;
      trace <- (if negb (isinstance trace CTrace) then
                  activities <- invoke get_activities_from_variant [trace] [] ;;
                  acts <- lift (py_iter activities) ;;
                  ret (promote_variant activity_key acts)
                else ret trace) ;;
      if isinstance model CProcessTree then
        __check_is_fit_process_tree trace model
      else if isinstance model CTuple then
        m0 <- lift (getitem_nat model 0) ;;
        if isinstance m0 CPetriNet then
          m0 <- lift (getitem_nat model 0) ;;
          m1 <- lift (getitem_nat model 1) ;;
          m2 <- lift (getitem_nat model 2) ;;
          __check_is_fit_petri_net trace m0 m1 m2 activity_key
        else ret VNone
      else ret VNone
  end.

Definition conformance_temporal_profile
    (log temporal_profile zeta : pyval)
    (activity_key timestamp_key case_id_key : string) : M pyval :=
  log_prelude log activity_key timestamp_key case_id_key ;;
  properties <- invoke get_properties [log]
                  (key_kwargs activity_key timestamp_key case_id_key) ;;
  properties <- lift (setitem_str properties "zeta" zeta) ;;
  invoke temporal_profile_conformance_apply [log; temporal_profile]
    [("parameters", properties)].

(** The default of [zeta] in the signature. *)
Definition DEFAULT_ZETA : pyval := VFloat (Fin 1).

Definition conformance_log_skeleton
    (log log_skeleton : pyval)
    (activity_key timestamp_key case_id_key : string) : M pyval :=
  log_prelude log activity_key timestamp_key case_id_key ;;
  properties <- invoke get_properties [log]
                  (key_kwargs activity_key timestamp_key case_id_key) ;;
  invoke log_skeleton_conformance_apply [log; log_skeleton]
    [("parameters", properties)].

End Functions.
End conformance.

(* ================================================================== *)
(** ** [pm4py/util/lp/variants/scipy_solver.py] *)
(* ================================================================== *)

Module scipy_solver.
Import Py Eff.
Local Open Scope py_scope.

(** [Parameters.INTEGRALITY] *)
Definition INTEGRALITY : string := "integrality".

Definition METHOD : string := "revised simplex".

Section Functions.
Context `{World}.

Definition apply (c Aub bub Aeq beq parameters : pyval) : M pyval :=
  let parameters :=
    match parameters with
    | VNone => VMap CDict []
    | _ => parameters
    end in
  integrality <- invoke exec_utils_get_param_value
                   [VStr INTEGRALITY; parameters; VNone] [] ;;
  sol <- invoke linprog [c]
           [("A_ub", Aub); ("b_ub", bub); ("A_eq", Aeq); ("b_eq", beq);
            ("method", VStr METHOD); ("integrality", integrality)] ;;
  ret sol.

End Functions.

(** [round(sol.fun)] *)
Definition get_prim_obj_from_sol (sol parameters : pyval) : outcome pyval :=
  match getattr sol "fun" with
  | Raise e => Raise e
  | Ok f => py_round f
  end.

(** [[round(y) for y in ...]] on the items already taken from [sol.x] *)
Fixpoint round_each (ys : list pyval) : outcome (list pyval) :=
  match ys with
  | [] => Ok []
  | y :: rest =>
      match py_round y with
      | Raise e => Raise e
      | Ok r =>
          match round_each rest with
          | Ok rs => Ok (r :: rs)
          | Raise e => Raise e
          end
      end
  end.

Definition get_points_from_sol (sol parameters : pyval) : outcome pyval :=
  match getattr sol "x" with
  | Raise e => Raise e
  | Ok x =>
      match py_iter x with
      | Raise e => Raise e
      | Ok ys =>
          match round_each ys with
          | Raise e => Raise e
          | Ok rs => Ok (VSeq CList rs)
          end
      end
  end.

End scipy_solver.

(* ================================================================== *)
(** ** Predicates used in the statements *)
(* ================================================================== *)

Module Props.
Import Py Eff conformance.

Section WithWorld.
Context `{World}.

(** Every log-taking entry point of [conformance.py], whatever its other
    arguments, stops with exception [e] and has called no collaborator. *)
Definition every_entry_point_stops_with (log : pyval) (e : pyexc) : Prop :=
  (forall net im fm ak tk ck,
      conformance_diagnostics_token_based_replay log net im fm ak tk ck
      = (Raise e, []))
  /\ (forall args mp ak tk ck,
      conformance_diagnostics_alignments log args mp ak tk ck = (Raise e, []))
  /\ (forall net im fm ak tk ck,
      fitness_token_based_replay log net im fm ak tk ck = (Raise e, []))
  /\ (forall net im fm mp ak tk ck,
      fitness_alignments log net im fm mp ak tk ck = (Raise e, []))
  /\ (forall net im fm ak tk ck,
      precision_token_based_replay log net im fm ak tk ck = (Raise e, []))
  /\ (forall net im fm mp ak tk ck,
      precision_alignments log net im fm mp ak tk ck = (Raise e, []))
  /\ (forall profile zeta ak tk ck,
      conformance_temporal_profile log profile zeta ak tk ck = (Raise e, []))
  /\ (forall skeleton ak tk ck,
      conformance_log_skeleton log skeleton ak tk ck = (Raise e, [])).

(** Every call made by [m] satisfies [P]. *)
Definition all_calls {A} (P : call -> Prop) (m : M A) : Prop :=
  Forall P (calls m).

(** A call that carries no activity key of the caller's: a keyword
    argument [activity_key] is the default one, a [parameters] dictionary
    is one that [get_properties] built for the default keys, and the
    footprint functions receive no keyword other than [variant]. *)
Definition default_configured (c : call) : Prop :=
  (forall v, In ("activity_key", v) (kwargs c) -> v = VStr DEFAULT_ACTIVITY_KEY)
  /\ (forall p, In ("parameters", p) (kwargs c) ->
       exists log,
         ext (Call get_properties [log]
                (key_kwargs DEFAULT_ACTIVITY_KEY DEFAULT_TIMESTAMP_KEY
                   DEFAULT_CASE_ID_KEY)) = Ok p)
  /\ (In (fn c) [discover_footprints; footprints_conformance_apply] ->
      forall name v, In (name, v) (kwargs c) -> name = "variant").

(** [m] calls none of the collaborators in [forbidden]. *)
Definition never_calls {A} (forbidden : list extfn) (m : M A) : Prop :=
  Forall (fun c => ~ In (fn c) forbidden) (calls m).

Definition REPLAY_ENGINE : list extfn := [token_replay_apply].

Definition ALIGNMENT_ENGINES : list extfn :=
  [alignments_apply; alignments_apply_multiprocessing; dfg_alignment_apply;
   search_graph_pt_apply; search_graph_pt_apply_multiprocessing].

Definition FOOTPRINT_ENGINES : list extfn :=
  [discover_footprints; footprints_conformance_apply].

(** *** What each tier of the cascade reports

    Each predicate says that a tier ran to completion, which verdict it
    gave and which calls it made. *)

(** Footprints of the tree and of the single-trace log are discovered,
    compared by [conformance_diagnostics_footprints], and the first
    result carries [fit] under ["is_footprints_fit"]. *)
Definition footprints_report (trace tree fit : pyval) (t : list call) : Prop :=
  exists fp_tree fp_log fp_conf fp_conf_res t_conf,
    ext (Call discover_footprints [tree] []) = Ok fp_tree
    /\ ext (Call discover_footprints [single_trace_log trace] []) = Ok fp_log
    /\ conformance_diagnostics_footprints [fp_log; fp_tree] = (Ok fp_conf, t_conf)
    /\ getitem_nat fp_conf 0 = Ok fp_conf_res
    /\ getitem_str fp_conf_res "is_footprints_fit" = Ok fit
    /\ t = Call discover_footprints [tree] []
           :: Call discover_footprints [single_trace_log trace] [] :: t_conf.

(** [net, im, fm = convert_to_petri_net(tree)] *)
Definition tree_as_net (tree net im fm : pyval) : Prop :=
  exists converted,
    ext (Call convert_to_petri_net [tree] []) = Ok converted
    /\ unpack3 converted = Ok (net, im, fm).

(** Token-based replay diagnostics of the log on the net, called with the
    default keys, return a list whose first record carries [fit] under
    ["trace_is_fit"]. *)
Definition replay_report (log net im fm fit : pyval) (t : list call) : Prop :=
  exists tbr_conf tbr_conf_res,
    conformance_diagnostics_token_based_replay log net im fm
      DEFAULT_ACTIVITY_KEY DEFAULT_TIMESTAMP_KEY DEFAULT_CASE_ID_KEY
    = (Ok tbr_conf, t)
    /\ getitem_nat tbr_conf 0 = Ok tbr_conf_res
    /\ getitem_str tbr_conf_res "trace_is_fit" = Ok fit.

(** Alignment diagnostics of the log on the model arguments, called with
    the defaults, return a list whose first record carries [fitness]
    under ["fitness"]. *)
Definition alignment_report (log : pyval) (model : list pyval)
    (fitness : pyval) (t : list call) : Prop :=
  exists align_conf align_conf_res,
    conformance_diagnostics_alignments log model false
      DEFAULT_ACTIVITY_KEY DEFAULT_TIMESTAMP_KEY DEFAULT_CASE_ID_KEY
    = (Ok align_conf, t)
    /\ getitem_nat align_conf 0 = Ok align_conf_res
    /\ getitem_str align_conf_res "fitness" = Ok fitness.

(** The calls of the router that hand the log to an alignment engine. *)
Definition parameters_kw (properties : pyval) : list (string * pyval) :=
  [("parameters", properties)].

Definition get_properties_call (log : pyval) (ak tk ck : string) : call :=
  Call get_properties [log] (key_kwargs ak tk ck).

(** The model arguments of [check_is_fitting] are coerced to [m], with
    the conversion calls [t]: either the conversion to a process tree
    returns [m], or it raises and the conversion to a Petri net returns
    [m]. *)
Definition coerced (model : list pyval) (m : pyval) (t : list call) : Prop :=
  (ext (Call convert_to_process_tree model []) = Ok m
   /\ t = [Call convert_to_process_tree model []])
  \/ (exists e,
        ext (Call convert_to_process_tree model []) = Raise e
        /\ ext (Call convert_to_petri_net model []) = Ok m
        /\ t = [Call convert_to_process_tree model [];
                Call convert_to_petri_net model []]).

(** The model arguments can be coerced to neither form: both conversions
    raise, the second one with [e]. *)
Definition not_coercible (model : list pyval) (e : pyexc) : Prop :=
  (exists e0, ext (Call convert_to_process_tree model []) = Raise e0)
  /\ ext (Call convert_to_petri_net model []) = Raise e.

End WithWorld.

(** The error class that the specification names for a model that
    cannot be coerced. *)
Definition is_UnsupportedModelError (e : pyexc) : bool :=
  match exc_cls e with
  | EOther name => String.eqb name "UnsupportedModelError"
  | _ => false
  end.

(** The verdict [b] says whether the number [f] is exactly 1. *)
Definition says_fitness_is_one (b : bool) (f : pyfloat) : Prop :=
  b = true <-> exists q, f = Fin q /\ (q == 1)%Q.

(** [z] is an integer nearest to [q]. *)
Definition nearest_integer (z : Z) (q : Q) : Prop :=
  (Qabs (inject_Z z - q) <= 1 # 2)%Q.

End Props.

(* ================================================================== *)
(** ** Concrete values and worlds used in the examples *)
(* ================================================================== *)

Module Examples.
Import Py Eff conformance.

(** A world in which every collaborator returns [None]. *)
Definition quiet_world : World := fun _ => Ok VNone.

(** A plain Python list of events: log shaped for a reader, but of none
    of the three accepted classes. *)
Definition plain_list_log : pyval := VSeq CList [].

(** An instance of a user class deriving from [EventLog]. *)
Definition my_event_log : pyval := VSeq (CSub "MyEventLog" CEventLog) [].

(** Opaque model objects. *)
Definition a_net : pyval :=
  VObj CPetriNet 1
    [("transitions",
      VSeq CSet [VObj CTransition 11 [("label", VStr "A")];
                 VObj CTransition 12 [("label", VNone)];
                 VObj CTransition 13 [("label", VStr "B")]])].
Definition an_im : pyval := VObj CMarking 2 [].
Definition a_fm : pyval := VObj CMarking 3 [].
Definition a_tree : pyval := VObj CProcessTree 4 [].
Definition a_dfg : pyval := VMap CDict [].
Definition a_bpmn : pyval := VObj (CSub "BPMN" CObject) 5 [].
Definition an_event_log : pyval := VSeq CEventLog [].

(** A world in which both model conversions raise. *)
Definition unsupported_world : World := fun c =>
  match fn c with
  | convert_to_process_tree =>
      Raise (Exc EException [VStr "unsupported conversion of the provided object to process tree"])
  | convert_to_petri_net =>
      Raise (Exc EException [VStr "unsupported conversion of the provided object to Petri net"])
  | _ => Ok VNone
  end.

(** A world for the cascade: the footprint comparison, the replay and
    the alignment report the verdicts given as parameters. *)
Definition cascade_world (fp_fit tbr_fit : bool) (fitness : pyfloat) : World :=
  fun c =>
  match fn c with
  | discover_footprints =>
      match args c with
      | [VSeq CEventLog _] => Ok (VSeq CList [VMap CDict []])
      | _ => Ok (VMap CDict [])
      end
  | footprints_conformance_apply =>
      Ok (VSeq CList [VMap CDict [(VStr "is_footprints_fit", VBool fp_fit)]])
  | convert_to_process_tree =>
      match args c with
      | [VObj CProcessTree i a] => Ok (VObj CProcessTree i a)
      | _ => Raise (Exc EException [VStr "unsupported conversion"])
      end
  | convert_to_petri_net =>
      match args c with
      | [VObj CPetriNet i a; im; fm] =>
          Ok (VSeq CTuple [VObj CPetriNet i a; im; fm])
      | _ => Ok (VSeq CTuple [a_net; an_im; a_fm])
      end
  | check_is_pandas_dataframe => Ok (VBool false)
  | get_properties => Ok (VMap CDict (map (fun kv => (VStr (fst kv), snd kv)) (kwargs c)))
  | token_replay_apply =>
      Ok (VSeq CList [VMap CDict [(VStr "trace_is_fit", VBool tbr_fit)]])
  | alignments_apply | search_graph_pt_apply =>
      Ok (VSeq CList [VMap CDict [(VStr "fitness", VFloat fitness)]])
  | get_activities_from_variant =>
      match args c with
      | [VSeq _ items] => Ok (VSeq CList items)
      | _ => Ok (VSeq CList [])
      end
  | _ => Ok VNone
  end.

(** A structured trace A, B under the default activity key. *)
Definition trace_AB : pyval :=
  VSeq CTrace [VMap CEvent [(VStr "concept:name", VStr "A")];
               VMap CEvent [(VStr "concept:name", VStr "B")]].

(** A structured trace with an activity the net does not have. *)
Definition trace_AC : pyval :=
  VSeq CTrace [VMap CEvent [(VStr "concept:name", VStr "A")];
               VMap CEvent [(VStr "concept:name", VStr "C")]].

(** A variant, given as the tuple of its activities. *)
Definition variant_AB : pyval := VSeq CTuple [VStr "A"; VStr "B"].

(** An LP solution with objective value 2.5 at the point (1.5, 0.7). *)
Definition a_solution : pyval :=
  VObj COptimizeResult 6
    [("fun", VFloat (Fin (5 # 2)));
     ("x", VSeq CNdarray [VFloat (Fin (3 # 2)); VFloat (Fin (7 # 10))])].

(** A world for the LP wrapper: the parameter lookup finds nothing and
    the backend returns [a_solution]. *)
Definition lp_world : World := fun c =>
  match fn c with
  | exec_utils_get_param_value => Ok (nth 2 (args c) VNone)
  | linprog => Ok a_solution
  | _ => Ok VNone
  end.

End Examples.

(* ================================================================== *)
(** ** Further predicates and example worlds *)
(* ================================================================== *)

Module Shapes.
Import Py Eff conformance.

(** [v] wrapped in [n] one-element tuples. *)
Fixpoint nested (n : nat) (v : pyval) : pyval :=
  match n with
  | O => v
  | S n' => VSeq CTuple [nested n' v]
  end.

(** Footprints that were computed beforehand: a [list] (one footprint per
    trace) or a [dict]. *)
Definition is_footprints (v : pyval) : bool :=
  type_is v CList || type_is v CDict.

(** A single object that is neither a tuple nor footprints. *)
Definition needs_discovery (v : pyval) : bool :=
  negb (type_is v CTuple) && negb (is_footprints v).

(** The model arguments that the alignment router hands to an engine as
    they are: three arguments starting with an exact [PetriNet], [dict]
    or [Counter], or one exact [ProcessTree]. *)
Definition routed_directly (args : list pyval) : bool :=
  match args with
  | [a0; _; _] => type_is a0 CPetriNet || type_is a0 CDict || type_is a0 CCounter
  | [a0] => type_is a0 CProcessTree
  | _ => false
  end.

(** The engines that work on several processes. *)
Definition PARALLEL_ENGINES : list extfn :=
  [alignments_apply_multiprocessing; search_graph_pt_apply_multiprocessing].

Definition PROCESS_TREE_ALIGNMENTS : list extfn :=
  [search_graph_pt_apply; search_graph_pt_apply_multiprocessing].

Section WithWorld.
Context `{World}.

(** Every log-taking entry point called with the keys [ak], [tk], [ck],
    whatever its other arguments, stops with exception [e] after the
    calls [t]. *)
Definition every_entry_point_stops_after (log : pyval) (ak tk ck : string)
    (e : pyexc) (t : list call) : Prop :=
  (forall net im fm,
      conformance_diagnostics_token_based_replay log net im fm ak tk ck
      = (Raise e, t))
  /\ (forall args mp,
      conformance_diagnostics_alignments log args mp ak tk ck = (Raise e, t))
  /\ (forall net im fm,
      fitness_token_based_replay log net im fm ak tk ck = (Raise e, t))
  /\ (forall net im fm mp,
      fitness_alignments log net im fm mp ak tk ck = (Raise e, t))
  /\ (forall net im fm,
      precision_token_based_replay log net im fm ak tk ck = (Raise e, t))
  /\ (forall net im fm mp,
      precision_alignments log net im fm mp ak tk ck = (Raise e, t))
  /\ (forall profile zeta,
      conformance_temporal_profile log profile zeta ak tk ck = (Raise e, t))
  /\ (forall skeleton,
      conformance_log_skeleton log skeleton ak tk ck = (Raise e, t)).

End WithWorld.
End Shapes.

Module MoreExamples.
Import Py Eff conformance.

(** A dataframe without the activity column: the column check raises. *)
Definition a_dataframe : pyval := VObj CDataFrame 7 [].

Definition missing_column : pyexc :=
  Exc EException [VStr "the specified activity key is not in the dataframe"].

Definition schema_world : World := fun c =>
  match fn c with
  | check_is_pandas_dataframe =>
      Ok (VBool (match args c with [a] => type_is a CDataFrame | _ => false end))
  | check_pandas_dataframe_columns => Raise missing_column
  | get_properties =>
      Ok (VMap CDict (map (fun kv => (VStr (fst kv), snd kv)) (kwargs c)))
  | _ => Ok VNone
  end.

(** An instance of a user class deriving from [PetriNet]. *)
Definition my_net : pyval := VObj (CSub "MyNet" CPetriNet) 8 [].

(** An instance of a user class deriving from [ProcessTree]. *)
Definition my_tree : pyval := VObj (CSub "MyTree" CProcessTree) 9 [].

(** A world in which replay raises. *)
Definition replay_error : pyexc := Exc EException [VStr "replay failed"].

Definition failing_replay_world : World := fun c =>
  match fn c with
  | token_replay_apply => Raise replay_error
  | _ => Examples.cascade_world true true (Fin 1%Q) c
  end.

(** A world whose model conversions return an object that is neither a
    process tree nor a tuple. *)
Definition odd_conversion_world : World := fun c =>
  match fn c with
  | convert_to_process_tree => Ok (VStr "not a model")
  | _ => Ok VNone
  end.

(** A trace whose second event has no activity attribute. *)
Definition trace_with_gap : pyval :=
  VSeq CTrace [VMap CEvent [(VStr "concept:name", VStr "A")];
               VMap CEvent [(VStr "time:timestamp", VInt 3)]].

(** An LP solution with integral coordinates. *)
Definition an_integral_solution : pyval :=
  VObj COptimizeResult 10
    [("fun", VFloat (Fin (7 # 1)));
     ("x", VSeq CNdarray [VFloat (Fin (3 # 1)); VFloat (Fin (-4 # 1)); VFloat (Fin 0)])].

End MoreExamples.

(* ================================================================== *)
(** ** Properties *)
(* ================================================================== *)

Import Py Eff conformance Props.

(** *** The model on small inputs *)

Example counter_is_a_dict_but_not_exactly :
  isinstance Examples.a_dfg CDict = true
  /\ isinstance (VMap CCounter []) CDict = true
  /\ type_is (VMap CCounter []) CDict = false.
Proof. repeat split. Qed.

Example round_half_even_examples :
  round_half_even (5 # 2) = 2 /\ round_half_even (7 # 2) = 4
  /\ round_half_even (-5 # 2) = -2 /\ round_half_even (13 # 5) = 3
  /\ round_half_even (-1 # 3) = 0.
Proof. repeat split. Qed.

Example fitness_equal_to_one :
  let eq1 v := result (@py_eq_float Examples.quiet_world v 1) in
  eq1 (VFloat (Fin (1 # 1))) = Ok (VBool true)
  /\ eq1 (VFloat (Fin (2 # 2))) = Ok (VBool true)
  /\ eq1 (VInt 1) = Ok (VBool true)
  /\ eq1 (VFloat (Fin (999 # 1000))) = Ok (VBool false)
  /\ eq1 (VFloat NaN) = Ok (VBool false)
  /\ eq1 VNone = Ok (VBool false)
  /\ calls (@py_eq_float Examples.quiet_world (VSeq CNdarray [VFloat (Fin 1)]) 1)
     = [Call object_eq [VSeq CNdarray [VFloat (Fin 1)]; VFloat (Fin 1)] []].
Proof. repeat split. Qed.

Example missing_keys :
  getitem_str (VMap CDict []) "a" = Raise (Exc EKeyError [VStr "a"])
  /\ getitem_str (VMap CEvent []) "a" = Raise (Exc EKeyError [VStr "a"])
  /\ getitem_str (VMap CCounter []) "a" = Ok (VInt 0).
Proof. repeat split. Qed.

Example unhashable_messages :
  conformance.make_set [VStr "A"; VSeq CList []]
  = Raise (Exc ETypeError [VStr "unhashable type: 'list'"])
  /\ conformance.make_set [VSeq CTuple [VStr "A"; VMap CDict []]]
     = Raise (Exc ETypeError [VStr "unhashable type: 'dict'"])
  /\ conformance.make_set [VStr "A"; VSeq CTuple [VInt 1]]
     = Ok [VStr "A"; VSeq CTuple [VInt 1]].
Proof. repeat split. Qed.

Example convert_to_fp_peels_tuples :
  @__convert_to_fp Examples.quiet_world
    (VSeq CTuple [VSeq CTuple [VSeq CTuple [VMap CDict []]]])
  = (Ok (VMap CDict []), [])
  /\ calls (@__convert_to_fp Examples.quiet_world
              (VSeq CTuple [VSeq CTuple [Examples.a_net; Examples.an_im; Examples.a_fm]]))
     = [Call discover_footprints [Examples.a_net; Examples.an_im; Examples.a_fm] []].
Proof. split; reflexivity. Qed.

Example cascade_outcomes :
  result (@__check_is_fit_process_tree (Examples.cascade_world false true (Fin 1))
            Examples.trace_AB Examples.a_tree) = Ok (VBool false)
  /\ result (@__check_is_fit_process_tree (Examples.cascade_world true true (Fin 0))
               Examples.trace_AB Examples.a_tree) = Ok (VBool true)
  /\ result (@__check_is_fit_process_tree (Examples.cascade_world true false (Fin (1 # 2)))
               Examples.trace_AB Examples.a_tree) = Ok (VBool false)
  /\ result (@__check_is_fit_petri_net (Examples.cascade_world true false (Fin 1))
               Examples.trace_AB Examples.a_net Examples.an_im Examples.a_fm
               "concept:name") = Ok (VBool true)
  /\ result (@check_is_fitting (Examples.cascade_world true true (Fin 1))
               [Examples.trace_AB; Examples.a_net; Examples.an_im; Examples.a_fm]
               "concept:name") = Ok (VBool true).
Proof. repeat split. Qed.

(** *** Generic facts about the effect monad *)

Lemma bind_ok {A B} (a : A) (t : list call) (k : A -> M B) :
  bind (Ok a, t) k = (fst (k a), t ++ snd (k a)).
Proof. unfold bind. destruct (k a); reflexivity. Qed.

Lemma bind_ret {A B} (a : A) (k : A -> M B) : bind (ret a) k = k a.
Proof. unfold bind, ret. destruct (k a); reflexivity. Qed.

(** *** The log-shape guard *)

Section LogShape.
Context `{World}.

Lemma log_prelude_rejects log ak tk ck :
  type_in log LOG_TYPES = false ->
  log_prelude log ak tk ck = (Raise LOG_SHAPE_ERROR, []).
Proof.
  intros E. unfold log_prelude. rewrite E. reflexivity.
Qed.

Lemma unaccepted_log_stops_every_entry_point log :
  type_in log LOG_TYPES = false ->
  every_entry_point_stops_with log LOG_SHAPE_ERROR.
Proof.
  intros E. unfold every_entry_point_stops_with.
  repeat match goal with |- _ /\ _ => split end; intros;
    unfold conformance_diagnostics_token_based_replay,
      conformance_diagnostics_alignments, fitness_token_based_replay,
      fitness_alignments, precision_token_based_replay, precision_alignments,
      conformance_temporal_profile, conformance_log_skeleton;
    rewrite log_prelude_rejects by exact E; reflexivity.
Qed.

(** Among the classes that are not user-defined, only the class itself
    and its fixed ancestors are super-classes. *)
Lemma proper_subclass_of_log_type_is_unaccepted c accepted :
  In accepted LOG_TYPES ->
  proper_subclass c accepted = true ->
  existsb (class_eqb c) LOG_TYPES = false.
Proof.
  intros Hin Hsub. unfold proper_subclass in Hsub.
  apply andb_true_iff in Hsub. destruct Hsub as [Hne Hsub].
  simpl in Hin.
  destruct Hin as [<- | [<- | [<- | []]]];
    destruct c; simpl in *; try discriminate; reflexivity.
Qed.

End LogShape.

(** C5, in the form that holds of the code.  A log whose exact class is
    none of [DataFrame], [EventLog], [EventStream] makes each of the eight
    log-taking entry points stop before any collaborator is called; the
    exception raised is a plain [Exception] carrying the log-shape
    message, and it is not an instance of [TypeError]. *)
Theorem C5_unrecognized_log_raises_plain_exception `{World} (log : pyval) :
  type_in log LOG_TYPES = false ->
  every_entry_point_stops_with log LOG_SHAPE_ERROR
  /\ exc_cls LOG_SHAPE_ERROR = EException
  /\ is_TypeError LOG_SHAPE_ERROR = false.
Proof.
  intros E. split; [ now apply unaccepted_log_stops_every_entry_point | ].
  split; reflexivity.
Qed.

Lemma C5_unrecognized_log_witness :
  type_in Examples.plain_list_log LOG_TYPES = false
  /\ @every_entry_point_stops_with Examples.quiet_world
       Examples.plain_list_log LOG_SHAPE_ERROR.
Proof.
  split; [ reflexivity | ].
  apply (@C5_unrecognized_log_raises_plain_exception Examples.quiet_world
           Examples.plain_list_log).
  reflexivity.
Defined.

(** C5 with [TypeError] as the class of the error does not hold: on a
    plain list the replay diagnostics stop with an exception that is not
    an instance of [TypeError]. *)
Lemma C5_raised_error_is_not_a_TypeError :
  type_in Examples.plain_list_log LOG_TYPES = false
  /\ ~ (exists e,
          result (@conformance_diagnostics_token_based_replay Examples.quiet_world
                    Examples.plain_list_log VNone VNone VNone
                    DEFAULT_ACTIVITY_KEY DEFAULT_TIMESTAMP_KEY DEFAULT_CASE_ID_KEY)
          = Raise e
          /\ is_TypeError e = true).
Proof.
  split; [ reflexivity | ].
  intros [e [Hres Hty]]. cbv in Hres. inversion Hres; subst e.
  discriminate Hty.
Qed.

(** C9.  The guard compares the exact class of the log: an instance of a
    proper subclass of an accepted class is an instance of that class for
    [isinstance], and yet each entry point rejects it with the log-shape
    error, before any collaborator is called. *)
Theorem C9_subclass_instance_rejected `{World} (log : pyval) (accepted : pyclass) :
  In accepted LOG_TYPES ->
  proper_subclass (type_of log) accepted = true ->
  isinstance log accepted = true
  /\ type_in log LOG_TYPES = false
  /\ every_entry_point_stops_with log LOG_SHAPE_ERROR.
Proof.
  intros Hin Hsub.
  assert (Hty : type_in log LOG_TYPES = false)
    by (unfold type_in; eapply proper_subclass_of_log_type_is_unaccepted; eauto).
  split.
  - unfold proper_subclass in Hsub. apply andb_true_iff in Hsub. apply Hsub.
  - split; [ exact Hty | now apply unaccepted_log_stops_every_entry_point ].
Qed.

Lemma C9_subclass_instance_witness :
  isinstance Examples.my_event_log CEventLog = true
  /\ type_in Examples.my_event_log LOG_TYPES = false
  /\ @every_entry_point_stops_with Examples.quiet_world
       Examples.my_event_log LOG_SHAPE_ERROR.
Proof.
  apply (@C9_subclass_instance_rejected Examples.quiet_world
           Examples.my_event_log CEventLog).
  - simpl. auto.
  - reflexivity.
Defined.

(** *** Running a computation step by step *)

Lemma run_bind {A B} (m : M A) (k : A -> M B) a t :
  m = (Ok a, t) -> bind m k = (result (k a), t ++ calls (k a)).
Proof. intros ->. apply bind_ok. Qed.

Lemma pair_result_calls {A} (m : M A) : (result m, calls m) = m.
Proof. destruct m; reflexivity. Qed.

(** *** C3 and C4: the routers *)

Section Routers.
Context `{World}.

(** C3, in the form that holds of the code.  When the model arguments
    can be coerced neither to a process tree nor to a Petri net (both
    conversions raise), the single-trace fitness check returns no value:
    it stops with the very exception that the Petri-net conversion
    raised, whatever its class, and has called nothing but the two
    conversions. *)
Theorem C3_unsupported_model_raises
    (trace : pyval) (model : list pyval) (activity_key : string) (e : pyexc) :
  not_coercible model e ->
  check_is_fitting (trace :: model) activity_key
  = (Raise e, [Call convert_to_process_tree model [];
               Call convert_to_petri_net model []])
  /\ (forall v, result (check_is_fitting (trace :: model) activity_key) <> Ok v).
Proof.
  intros [[e0 Htree] Hnet].
  assert (E : check_is_fitting (trace :: model) activity_key
              = (Raise e, [Call convert_to_process_tree model [];
                           Call convert_to_petri_net model []])).
  { unfold check_is_fitting, try_except, invoke.
    rewrite Htree, Hnet. reflexivity. }
  split; [ exact E | ].
  intros v. rewrite E. discriminate.
Qed.

(** C4.  Once the log has passed the prelude and the properties have been
    built, the alignment router with [multi_processing] set hands a Petri
    net with its two markings to [apply_multiprocessing] of the Petri-net
    alignments and a process tree to [apply_multiprocessing] of the
    process-tree alignments; a [dict] or [Counter] with two more arguments
    goes to the sequential DFG alignment whatever the flag is.  In each
    case that call is the last one and its outcome is the outcome of the
    router. *)
Theorem C4_alignment_router_parallel_flag
    (log properties : pyval) (ak tk ck : string) (pre : list call) :
  log_prelude log ak tk ck = (Ok tt, pre) ->
  ext (get_properties_call log ak tk ck) = Ok properties ->
  (forall net im fm,
      type_is net CPetriNet = true ->
      let c := Call alignments_apply_multiprocessing [log; net; im; fm]
                 (parameters_kw properties) in
      conformance_diagnostics_alignments log [net; im; fm] true ak tk ck
      = (ext c, pre ++ [get_properties_call log ak tk ck; c]))
  /\ (forall tree,
      type_is tree CProcessTree = true ->
      let c := Call search_graph_pt_apply_multiprocessing [log; tree]
                 (parameters_kw properties) in
      conformance_diagnostics_alignments log [tree] true ak tk ck
      = (ext c, pre ++ [get_properties_call log ak tk ck; c]))
  /\ (forall dfg sa ea multi_processing,
      type_is dfg CDict = true \/ type_is dfg CCounter = true ->
      let c := Call dfg_alignment_apply [log; dfg; sa; ea]
                 (parameters_kw properties) in
      conformance_diagnostics_alignments log [dfg; sa; ea] multi_processing ak tk ck
      = (ext c, pre ++ [get_properties_call log ak tk ck; c])).
Proof.
  intros Hpre Hprops. unfold get_properties_call in *.
  split; [ | split ]; intros;
    unfold conformance_diagnostics_alignments;
    rewrite (run_bind _ Hpre); unfold invoke; rewrite Hprops; cbn.
  - rewrite H0. reflexivity.
  - rewrite H0. reflexivity.
  - destruct H0 as [Hd | Hc].
    + assert (Hn : type_is dfg CPetriNet = false)
        by (unfold type_is in *; destruct (type_of dfg); simpl in *; congruence).
      rewrite Hn, Hd. reflexivity.
    + assert (Hn : type_is dfg CPetriNet = false)
        by (unfold type_is in *; destruct (type_of dfg); simpl in *; congruence).
      rewrite Hn, Hc. rewrite orb_true_r. reflexivity.
Qed.

End Routers.

Lemma C3_unsupported_model_witness :
  @not_coercible Examples.unsupported_world [Examples.a_bpmn]
    (Exc EException [VStr "unsupported conversion of the provided object to Petri net"])
  /\ result (@check_is_fitting Examples.unsupported_world
               [VStr "A,B"; Examples.a_bpmn] DEFAULT_ACTIVITY_KEY)
     = Raise (Exc EException [VStr "unsupported conversion of the provided object to Petri net"]).
Proof.
  assert (N : @not_coercible Examples.unsupported_world [Examples.a_bpmn]
    (Exc EException [VStr "unsupported conversion of the provided object to Petri net"])).
  { split; [ eexists; reflexivity | reflexivity ]. }
  split; [ exact N | ].
  destruct (@C3_unsupported_model_raises Examples.unsupported_world
              (VStr "A,B") [Examples.a_bpmn] DEFAULT_ACTIVITY_KEY _ N) as [E _].
  rewrite E. reflexivity.
Defined.

(** C3 with [UnsupportedModelError] as the class of the error does not
    hold: [check_is_fitting] raises no exception of its own, and where
    the conversions raise a plain [Exception] for an object they do not
    support, that plain [Exception] is what the check stops with. *)
Lemma C3_raised_error_is_not_an_UnsupportedModelError :
  @not_coercible Examples.unsupported_world [Examples.a_bpmn]
    (Exc EException [VStr "unsupported conversion of the provided object to Petri net"])
  /\ ~ (exists e,
          result (@check_is_fitting Examples.unsupported_world
                    [VStr "A,B"; Examples.a_bpmn] DEFAULT_ACTIVITY_KEY)
          = Raise e
          /\ is_UnsupportedModelError e = true).
Proof.
  split; [ split; [ eexists; reflexivity | reflexivity ] | ].
  intros [e [Hres Hcls]]. cbv in Hres. inversion Hres; subst e.
  discriminate Hcls.
Qed.

Lemma C4_alignment_router_witness :
  @log_prelude Examples.quiet_world Examples.an_event_log
     DEFAULT_ACTIVITY_KEY DEFAULT_TIMESTAMP_KEY DEFAULT_CASE_ID_KEY
  = (Ok tt, [Call event_log_deprecation_warning [Examples.an_event_log] [];
             Call check_is_pandas_dataframe [Examples.an_event_log] []])
  /\ map fn (calls (@conformance_diagnostics_alignments Examples.quiet_world
                      Examples.an_event_log [Examples.a_tree] true
                      DEFAULT_ACTIVITY_KEY DEFAULT_TIMESTAMP_KEY DEFAULT_CASE_ID_KEY))
     = [event_log_deprecation_warning; check_is_pandas_dataframe;
        get_properties; search_graph_pt_apply_multiprocessing].
Proof.
  split; [ reflexivity | ].
  destruct (@C4_alignment_router_parallel_flag Examples.quiet_world
              Examples.an_event_log VNone
              DEFAULT_ACTIVITY_KEY DEFAULT_TIMESTAMP_KEY DEFAULT_CASE_ID_KEY
              _ eq_refl eq_refl) as [_ [Htree _]].
  rewrite (Htree Examples.a_tree eq_refl). reflexivity.
Defined.

(** *** Which collaborators a computation can call *)

Section Calls.
Context `{World}.

Lemma never_calls_ret {A} F (a : A) : never_calls F (ret a).
Proof. constructor. Qed.

Lemma never_calls_raise {A} F e : never_calls F (@raise A e).
Proof. constructor. Qed.

Lemma never_calls_lift {A} F (o : outcome A) : never_calls F (lift o).
Proof. constructor. Qed.

Lemma never_calls_invoke F f a kw :
  ~ In f F -> never_calls F (invoke f a kw).
Proof. intros N. unfold never_calls, invoke. simpl. constructor; auto. Qed.

Lemma never_calls_bind {A B} F (m : M A) (k : A -> M B) :
  never_calls F m -> (forall a, never_calls F (k a)) ->
  never_calls F (bind m k).
Proof.
  unfold never_calls, calls, bind. intros Hm Hk.
  destruct m as [[a | e] t]; simpl in *; [ | exact Hm ].
  specialize (Hk a). destruct (k a) as [r t']. simpl in *.
  apply Forall_app. split; assumption.
Qed.

Lemma never_calls_eq {A} F (m : M A) r t :
  m = (r, t) -> never_calls F m -> Forall (fun c => ~ In (fn c) F) t.
Proof. intros ->. exact (fun x => x). Qed.

End Calls.

Ltac not_listed := simpl; intuition congruence.

Ltac never_calls_step :=
  first
    [ apply never_calls_ret
    | apply never_calls_raise
    | apply never_calls_lift
    | apply never_calls_invoke; [ not_listed ]
    | apply never_calls_bind; [ | intros ]
    | match goal with
      | |- never_calls _ (if ?b then _ else _) => destruct b
      | |- never_calls _ (match ?x with _ => _ end) => destruct x
      | |- never_calls _ (let (_, _) := ?x in _) => destruct x
      end ].

Section Calls_of_the_entry_points.
Context `{World}.

Lemma log_prelude_never_calls F log ak tk ck :
  ~ In event_log_deprecation_warning F ->
  ~ In check_is_pandas_dataframe F ->
  ~ In check_pandas_dataframe_columns F ->
  never_calls F (log_prelude log ak tk ck).
Proof.
  intros. unfold log_prelude.
  repeat first [ apply never_calls_invoke; [ assumption ] | never_calls_step ].
Qed.

Lemma token_based_replay_never_calls F log net im fm ak tk ck :
  (forall f, In f F -> In f ALIGNMENT_ENGINES \/ In f FOOTPRINT_ENGINES) ->
  never_calls F (conformance_diagnostics_token_based_replay log net im fm ak tk ck).
Proof.
  intros HF. unfold conformance_diagnostics_token_based_replay.
  apply never_calls_bind;
    [ apply log_prelude_never_calls; intros I; apply HF in I; revert I; not_listed
    | intros ].
  apply never_calls_bind; [ | intros ];
    apply never_calls_invoke; intros I; apply HF in I; revert I; not_listed.
Qed.

Lemma convert_to_fp_never_calls F :
  ~ In discover_footprints F ->
  forall args, never_calls F (__convert_to_fp args).
Proof.
  intros N. fix IH 1. intros args.
  destruct args as [ | | | | | | c items | | ]; simpl.
  7: { destruct (class_eqb c CTuple).
       - destruct items as [ | a [ | b rest ] ].
         + apply never_calls_invoke; assumption.
         + apply IH.
         + apply never_calls_invoke; assumption.
       - repeat first [ apply never_calls_invoke; [ assumption ]
                      | never_calls_step ]. }
  all: repeat first [ apply never_calls_invoke; [ assumption ]
                    | never_calls_step ].
Qed.

Lemma footprints_never_calls F args :
  (forall f, In f F -> ~ In f FOOTPRINT_ENGINES) ->
  never_calls F (conformance_diagnostics_footprints args).
Proof.
  intros HF.
  assert (N1 : ~ In discover_footprints F)
    by (intros I; apply (HF _ I); simpl; auto).
  assert (N2 : ~ In footprints_conformance_apply F)
    by (intros I; apply (HF _ I); simpl; auto).
  unfold conformance_diagnostics_footprints.
  destruct args as [ | a0 rest ]; [ apply never_calls_raise | ].
  apply never_calls_bind; [ apply convert_to_fp_never_calls; assumption | intros ].
  apply never_calls_bind; [ apply convert_to_fp_never_calls; assumption | intros ].
  destruct (isinstance a CList); apply never_calls_invoke; assumption.
Qed.

Lemma alignments_never_calls F log args mp ak tk ck :
  (forall f, In f F -> In f REPLAY_ENGINE \/ In f FOOTPRINT_ENGINES) ->
  never_calls F (conformance_diagnostics_alignments log args mp ak tk ck).
Proof.
  intros HF.
  assert (N : forall f, ~ (In f REPLAY_ENGINE \/ In f FOOTPRINT_ENGINES) -> ~ In f F)
    by (intros f Nf I; apply Nf; auto).
  unfold conformance_diagnostics_alignments.
  apply never_calls_bind;
    [ apply log_prelude_never_calls; apply N; not_listed | intros ].
  repeat first [ apply never_calls_invoke; [ apply N; not_listed ]
               | never_calls_step ].
Qed.

End Calls_of_the_entry_points.

(** *** Big-step rules used to run the cascade *)

Section Steps.
Context `{World}.

Lemma step_invoke {B} f a kw v (k : pyval -> M B) r t :
  ext (Call f a kw) = Ok v ->
  k v = (r, t) ->
  bind (invoke f a kw) k = (r, Call f a kw :: t).
Proof. intros E K. unfold invoke, bind. rewrite E, K. reflexivity. Qed.

Lemma step_bind {A B} (m : M A) (k : A -> M B) a t r t' T :
  m = (Ok a, t) ->
  k a = (r, t') ->
  T = t ++ t' ->
  bind m k = (r, T).
Proof. intros -> K ->. unfold bind. rewrite K. reflexivity. Qed.

Lemma step_lift {A B} (o : outcome A) (k : A -> M B) a X :
  o = Ok a -> k a = X -> bind (lift o) k = X.
Proof. intros -> <-. apply bind_ret. Qed.

End Steps.

Ltac invoke_step E := eapply step_invoke; [ exact E | cbv beta iota zeta ].
Ltac bind_step E := eapply step_bind; [ exact E | cbv beta iota zeta | ].
Ltac lift_step E := eapply step_lift; [ exact E | cbv beta iota zeta ].
Ltac traces :=
  first [ reflexivity
        | simpl; rewrite ?app_nil_r; reflexivity
        | simpl; rewrite ?app_nil_r, <- ?app_assoc; reflexivity ].

(** *** Comparing the fitness with [1.0] *)

Lemma float_eqb_says_one (f : pyfloat) :
  says_fitness_is_one (float_eqb f (Fin 1)) f.
Proof.
  unfold says_fitness_is_one. destruct f as [q | | neg]; simpl.
  - rewrite Qeq_bool_iff. split.
    + intros E. exists q. split; [ reflexivity | exact E ].
    + intros (q' & E & E1). injection E as ->. exact E1.
  - split; [ discriminate | intros (q & E & _); discriminate E ].
  - split; [ discriminate | intros (q & E & _); discriminate E ].
Qed.

Lemma py_eq_float_of_number `{World} (v : pyval) (f : pyfloat) (x : Q) :
  as_number v = Some f ->
  py_eq_float v x = (Ok (VBool (float_eqb f (Fin x))), []).
Proof. intros E. unfold py_eq_float. rewrite E. reflexivity. Qed.

Lemma py_eq_float_never_calls `{World} F (v : pyval) (x : Q) :
  ~ In object_eq F -> never_calls F (py_eq_float v x).
Proof.
  intros N. unfold py_eq_float.
  destruct (as_number v); [ apply never_calls_ret | ].
  destruct v; try (apply never_calls_ret); try (apply never_calls_invoke; exact N);
    match goal with
    | |- never_calls _ (if ?b then _ else _) =>
        destruct b; [ apply never_calls_ret | apply never_calls_invoke; exact N ]
    end.
Qed.

(** *** C1: the cascade on a process tree *)

Section Cascade_on_trees.
Context `{World}.

(** C1.  [__check_is_fit_process_tree] follows the three tiers.  Let the
    footprint comparison of the trace and the tree report a verdict.  If
    the verdict is falsy the check returns [False], and neither the
    replay engine nor an alignment engine has been called.  Otherwise the
    tree is converted to a Petri net and replayed; if replay reports the
    trace fit the check returns [True] and no alignment engine has been
    called; otherwise the log is aligned on the tree and, the fitness
    being a number, the check returns [True] if that number is exactly 1
    and [False] if it is any other number. *)
Theorem C1_process_tree_cascade
    (trace tree w fp_fit : pyval) (t_fp : list call) :
  let log := single_trace_log trace in
  let c_warn := Call event_log_deprecation_warning [trace] [] in
  let c_conv := Call convert_to_petri_net [tree] [] in
  ext c_warn = Ok w ->
  footprints_report trace tree fp_fit t_fp ->
  (truthy fp_fit = false ->
     __check_is_fit_process_tree trace tree = (Ok (VBool false), c_warn :: t_fp)
     /\ never_calls (REPLAY_ENGINE ++ ALIGNMENT_ENGINES)
          (__check_is_fit_process_tree trace tree))
  /\ (truthy fp_fit = true ->
      forall net im fm tbr_fit t_tbr,
        tree_as_net tree net im fm ->
        replay_report log net im fm tbr_fit t_tbr ->
        (truthy tbr_fit = true ->
           __check_is_fit_process_tree trace tree
           = (Ok (VBool true), c_warn :: t_fp ++ c_conv :: t_tbr)
           /\ never_calls ALIGNMENT_ENGINES
                (__check_is_fit_process_tree trace tree))
        /\ (truthy tbr_fit = false ->
            forall fitness t_al f,
              alignment_report log [tree] fitness t_al ->
              as_number fitness = Some f ->
              exists b,
                __check_is_fit_process_tree trace tree
                = (Ok (VBool b), c_warn :: t_fp ++ c_conv :: t_tbr ++ t_al)
                /\ says_fitness_is_one b f)).
Proof.
  intros log c_warn c_conv Hwarn
    (fp_tree & fp_log & fp_conf & fp_conf_res & t_conf
     & Htree & Hlog & Hconf & Hres & Hfit & ->).
  split.
  - intros Hfalse.
    assert (E : __check_is_fit_process_tree trace tree
                = (Ok (VBool false),
                   c_warn :: Call discover_footprints [tree] []
                   :: Call discover_footprints [single_trace_log trace] []
                   :: t_conf)).
    { unfold __check_is_fit_process_tree.
      invoke_step Hwarn. invoke_step Htree. invoke_step Hlog.
      bind_step Hconf.
      lift_step Hres. lift_step Hfit.
      rewrite Hfalse. reflexivity. all: traces. }
    split; [ exact E | ].
    rewrite E. unfold never_calls, calls. simpl snd.
    repeat (constructor; [ not_listed | ]).
    eapply never_calls_eq; [ exact Hconf | ].
    apply footprints_never_calls. intros f I. revert I. not_listed.
  - intros Htrue net im fm tbr_fit t_tbr
      (converted & Hconv & Hunpack)
      (tbr_conf & tbr_conf_res & Htbr & Htbr0 & Htbrfit).
    split.
    + intros Hfit2.
      assert (E : __check_is_fit_process_tree trace tree
                  = (Ok (VBool true),
                     c_warn :: (Call discover_footprints [tree] []
                     :: Call discover_footprints [single_trace_log trace] []
                     :: t_conf) ++ c_conv :: t_tbr)).
      { unfold __check_is_fit_process_tree.
        invoke_step Hwarn. invoke_step Htree. invoke_step Hlog.
        bind_step Hconf.
        lift_step Hres. lift_step Hfit.
        rewrite Htrue. simpl negb. cbv iota.
        invoke_step Hconv. lift_step Hunpack.
        bind_step Htbr.
        lift_step Htbr0. lift_step Htbrfit.
        rewrite Hfit2. reflexivity. all: traces. }
      split; [ exact E | ].
      rewrite E. unfold never_calls, calls. simpl snd.
      repeat (constructor; [ not_listed | ]).
      apply Forall_app. split.
      * eapply never_calls_eq; [ exact Hconf | ].
        apply footprints_never_calls. intros f I. revert I. not_listed.
      * constructor; [ not_listed | ].
        eapply never_calls_eq; [ exact Htbr | ].
        apply token_based_replay_never_calls. intros f I. left. exact I.
    + intros Hunfit fitness t_al f
        (align_conf & align_conf_res & Hal & Hal0 & Halfit) Hnum.
      exists (float_eqb f (Fin 1)).
      split; [ | apply float_eqb_says_one ].
      unfold __check_is_fit_process_tree.
      invoke_step Hwarn. invoke_step Htree. invoke_step Hlog.
      bind_step Hconf.
      lift_step Hres. lift_step Hfit.
      rewrite Htrue. simpl negb. cbv iota.
      invoke_step Hconv. lift_step Hunpack.
      bind_step Htbr.
      lift_step Htbr0. lift_step Htbrfit.
      rewrite Hunfit.
      bind_step Hal.
      lift_step Hal0. lift_step Halfit.
      apply py_eq_float_of_number. exact Hnum. all: traces.
Qed.

End Cascade_on_trees.

Lemma C1_process_tree_cascade_witness :
  result (@__check_is_fit_process_tree
            (Examples.cascade_world true false (Fin 1%Q))
            Examples.trace_AB Examples.a_tree) = Ok (VBool true)
  /\ result (@__check_is_fit_process_tree
               (Examples.cascade_world true false (Fin (1 # 2)%Q))
               Examples.trace_AB Examples.a_tree) = Ok (VBool false)
  /\ result (@__check_is_fit_process_tree
               (Examples.cascade_world true true (Fin 0%Q))
               Examples.trace_AB Examples.a_tree) = Ok (VBool true)
  /\ @__check_is_fit_process_tree
       (Examples.cascade_world false true (Fin 1%Q))
       Examples.trace_AB Examples.a_tree
     = (Ok (VBool false),
        [Call event_log_deprecation_warning [Examples.trace_AB] [];
         Call discover_footprints [Examples.a_tree] [];
         Call discover_footprints [single_trace_log Examples.trace_AB] [];
         Call footprints_conformance_apply
           [VSeq CList [VMap CDict []]; VMap CDict []]
           [("variant", VEnum "footprints_conformance.Variants.TRACE_EXTENSIVE")]]).
Proof.
  assert (R : forall fp tbr q,
             @footprints_report (Examples.cascade_world fp tbr (Fin q))
               Examples.trace_AB Examples.a_tree (VBool fp)
               [Call discover_footprints [Examples.a_tree] [];
                Call discover_footprints [single_trace_log Examples.trace_AB] [];
                Call footprints_conformance_apply
                  [VSeq CList [VMap CDict []]; VMap CDict []]
                  [("variant",
                    VEnum "footprints_conformance.Variants.TRACE_EXTENSIVE")]]).
  { intros. unfold footprints_report. do 5 eexists.
    repeat match goal with |- _ /\ _ => split end; reflexivity. }
  assert (Tn : forall fp tbr q,
             @tree_as_net (Examples.cascade_world fp tbr (Fin q)) Examples.a_tree
               Examples.a_net Examples.an_im Examples.a_fm)
    by (intros; eexists; split; reflexivity).
  assert (Rp : forall fp tbr q, exists t,
             @replay_report (Examples.cascade_world fp tbr (Fin q))
               (single_trace_log Examples.trace_AB)
               Examples.a_net Examples.an_im Examples.a_fm (VBool tbr) t).
  { intros. unfold replay_report. do 3 eexists.
    repeat match goal with |- _ /\ _ => split end; reflexivity. }
  assert (Ra : forall fp tbr q, exists t,
             @alignment_report (Examples.cascade_world fp tbr (Fin q))
               (single_trace_log Examples.trace_AB)
               [Examples.a_tree] (VFloat (Fin q)) t).
  { intros. unfold alignment_report. do 3 eexists.
    repeat match goal with |- _ /\ _ => split end; reflexivity. }
  assert (Tier3 : forall q, exists b,
             result (@__check_is_fit_process_tree
                       (Examples.cascade_world true false (Fin q))
                       Examples.trace_AB Examples.a_tree) = Ok (VBool b)
             /\ says_fitness_is_one b (Fin q)).
  { intros q.
    destruct (Rp true false q) as [t_tbr Hrp].
    destruct (Ra true false q) as [t_al Hra].
    destruct (@C1_process_tree_cascade (Examples.cascade_world true false (Fin q))
                Examples.trace_AB Examples.a_tree VNone (VBool true) _
                eq_refl (R true false q)) as [_ Hfit].
    destruct (Hfit eq_refl _ _ _ _ _ (Tn true false q) Hrp) as [_ Halign].
    destruct (Halign eq_refl _ _ (Fin q) Hra eq_refl) as (b & E & Hb).
    exists b. rewrite E. split; [ reflexivity | exact Hb ]. }
  split; [ | split; [ | split ] ].
  - destruct (Tier3 1%Q) as (b & E & Hb). rewrite E.
    destruct b; [ reflexivity | ].
    assert (T : false = true) by (apply Hb; exists 1%Q; split; reflexivity).
    discriminate T.
  - destruct (Tier3 (1 # 2)%Q) as (b & E & Hb). rewrite E.
    destruct b; [ | reflexivity ].
    destruct Hb as [Hb _]. destruct (Hb eq_refl) as (q & Eq & E1).
    injection Eq as <-. discriminate E1.
  - destruct (Rp true true 0%Q) as [t_tbr Hrp].
    destruct (@C1_process_tree_cascade (Examples.cascade_world true true (Fin 0%Q))
                Examples.trace_AB Examples.a_tree VNone (VBool true) _
                eq_refl (R true true 0%Q)) as [_ Hfit].
    destruct (Hfit eq_refl _ _ _ _ _ (Tn true true 0%Q) Hrp) as [Hreplay _].
    destruct (Hreplay eq_refl) as [E _]. rewrite E. reflexivity.
  - destruct (@C1_process_tree_cascade (Examples.cascade_world false true (Fin 1%Q))
                Examples.trace_AB Examples.a_tree VNone (VBool false) _
                eq_refl (R false true 1%Q)) as [Hunfit _].
    destruct (Hunfit eq_refl) as [E _]. exact E.
Defined.

(** *** C2: the cascade on a Petri net *)

Lemma truthy_missing (s t : list pyval) :
  truthy (VSeq CSet (filter (fun a => negb (existsb (hash_eqb a) t)) s))
  = negb (forallb (fun a => existsb (hash_eqb a) t) s).
Proof.
  induction s as [ | a s IH ]; simpl; [ reflexivity | ].
  destruct (existsb (hash_eqb a) t); simpl; [ exact IH | reflexivity ].
Qed.

Lemma existsb_hash_eqb_strings (n : string) (ls : list string) :
  existsb (hash_eqb (VStr n)) (map VStr ls) = true <-> In n ls.
Proof.
  induction ls as [ | l ls IH ]; simpl.
  - split; [ discriminate | intros [] ].
  - rewrite orb_true_iff, IH, String.eqb_eq. split.
    + intros [-> | I]; auto.
    + intros [-> | I]; auto.
Qed.

Section Set_difference.
Context `{World}.

(** When [==] decides every lookup (the element is found, or it has no
    NaN inside), the difference is computed without asking the world. *)
Lemma set_difference_from_decided (t whole : list pyval) :
  forall s i,
    (forall a, In a s -> existsb (hash_eqb a) t = true \/ has_nan a = false) ->
    set_difference_from i s whole t
    = (Ok (filter (fun a => negb (existsb (hash_eqb a) t)) s), []).
Proof.
  induction s as [ | a s IH ]; intros i Hs; cbn [set_difference_from filter];
    [ reflexivity | ].
  assert (Hrest : forall b, In b s ->
                            existsb (hash_eqb b) t = true \/ has_nan b = false)
    by (intros b Hb; apply Hs; right; exact Hb).
  destruct (Hs a (or_introl eq_refl)) as [Hfound | Hnan].
  - rewrite Hfound. rewrite bind_ret. rewrite (IH (S i) Hrest). reflexivity.
  - destruct (existsb (hash_eqb a) t).
    + rewrite bind_ret. rewrite (IH (S i) Hrest). reflexivity.
    + rewrite Hnan. simpl andb. cbv iota. rewrite bind_ret.
      rewrite (IH (S i) Hrest). reflexivity.
Qed.

Lemma set_difference_decided (s t : list pyval) :
  (forall a, In a s -> existsb (hash_eqb a) t = true \/ has_nan a = false) ->
  set_difference s t
  = (Ok (filter (fun a => negb (existsb (hash_eqb a) t)) s), []).
Proof. apply set_difference_from_decided. Qed.

Lemma set_difference_of_strings (names labels : list string) :
  set_difference (map VStr names) (map VStr labels)
  = (Ok (filter (fun a => negb (existsb (hash_eqb a) (map VStr labels)))
           (map VStr names)), []).
Proof.
  apply set_difference_decided. intros a Ha.
  apply in_map_iff in Ha. destruct Ha as (n & <- & _). right. reflexivity.
Qed.

Lemma set_difference_never_calls F (s t : list pyval) :
  ~ In same_object F -> never_calls F (set_difference s t).
Proof.
  intros N. unfold set_difference. generalize 0%nat. generalize s at 2.
  induction s as [ | a s IH ]; intros whole i; cbn [set_difference_from];
    [ apply never_calls_ret | ].
  apply never_calls_bind.
  - destruct (existsb (hash_eqb a) t); [ apply never_calls_ret | ].
    destruct (has_nan a && existsb has_nan t); [ | apply never_calls_ret ].
    apply never_calls_bind; [ apply never_calls_invoke; exact N | intros ].
    apply never_calls_ret.
  - intros found. apply never_calls_bind; [ apply IH | intros ].
    apply never_calls_ret.
Qed.

End Set_difference.

(** A NaN among the activities and the labels: [==] does not find it,
    and the lookup finds it exactly when it is the same object, which the
    world tells. *)
Example nan_found_by_identity :
  @set_difference (fun _ => Ok (VBool true)) [VFloat NaN; VStr "A"] [VFloat NaN]
  = (Ok [VStr "A"],
     [Call same_object
        [VInt 0; VSeq CSet [VFloat NaN; VStr "A"]; VSeq CSet [VFloat NaN]] []])
  /\ result (@set_difference (fun _ => Ok (VBool false)) [VFloat NaN; VStr "A"]
               [VFloat NaN])
     = Ok [VFloat NaN; VStr "A"].
Proof. split; reflexivity. Qed.

Lemma all_names_are_labels (names labels : list string) :
  forallb (fun a => existsb (hash_eqb a) (map VStr labels)) (map VStr names) = true
  <-> forall n, In n names -> In n labels.
Proof.
  rewrite forallb_forall. split.
  - intros Hall n Hn. apply existsb_hash_eqb_strings. apply Hall.
    apply in_map. exact Hn.
  - intros Hall a Ha. apply in_map_iff in Ha. destruct Ha as (n & <- & Hn).
    apply existsb_hash_eqb_strings. apply Hall. exact Hn.
Qed.

Section Cascade_on_nets.
Context `{World}.

Lemma petri_net_check_never_calls_footprints trace net im fm activity_key :
  never_calls FOOTPRINT_ENGINES
    (__check_is_fit_petri_net trace net im fm activity_key).
Proof.
  unfold __check_is_fit_petri_net.
  apply never_calls_bind; [ apply never_calls_invoke; not_listed | intros ].
  apply never_calls_bind; [ apply never_calls_lift | intros ].
  apply never_calls_bind; [ apply never_calls_lift | intros ].
  apply never_calls_bind; [ apply set_difference_never_calls; not_listed | intros ].
  destruct (truthy _); [ apply never_calls_ret | ].
  cbv zeta.
  apply never_calls_bind;
    [ apply token_based_replay_never_calls; intros f I; right; exact I | intros ].
  apply never_calls_bind; [ apply never_calls_lift | intros ].
  apply never_calls_bind; [ apply never_calls_lift | intros ].
  destruct (truthy _); [ apply never_calls_ret | ].
  apply never_calls_bind;
    [ apply alignments_never_calls; intros f I; right; exact I | intros ].
  apply never_calls_bind; [ apply never_calls_lift | intros ].
  apply never_calls_bind; [ apply never_calls_lift | intros ].
  apply py_eq_float_never_calls. not_listed.
Qed.

(** C2.  [__check_is_fit_petri_net] never calls footprint discovery or
    footprint comparison.  Let the labels of the net and the activities
    of the trace be the strings [labels] and [names].  If some activity
    of the trace is not a label of the net, the check returns [False]
    having called nothing but the deprecation warning.  If every
    activity is a label, the trace is replayed; the check returns [True]
    when replay reports it fit, and otherwise aligns the log on the net
    and, the fitness being a number, returns [True] if that number is
    exactly 1 and [False] if it is any other number.  Conversely the
    replay engine is only called when every activity of the trace is a
    label of the net. *)
Theorem C2_petri_net_cascade
    (trace net im fm w : pyval) (activity_key : string)
    (labels names : list string) :
  let log := single_trace_log trace in
  let c_warn := Call event_log_deprecation_warning [trace] [] in
  let check := __check_is_fit_petri_net trace net im fm activity_key in
  ext c_warn = Ok w ->
  model_activities net = Ok (map VStr labels) ->
  trace_activities trace activity_key = Ok (map VStr names) ->
  never_calls FOOTPRINT_ENGINES check
  /\ ((exists n, In n names /\ ~ In n labels) ->
      check = (Ok (VBool false), [c_warn]))
  /\ ((forall n, In n names -> In n labels) ->
      forall tbr_fit t_tbr,
        replay_report log net im fm tbr_fit t_tbr ->
        (truthy tbr_fit = true ->
           check = (Ok (VBool true), c_warn :: t_tbr))
        /\ (truthy tbr_fit = false ->
            forall fitness t_al f,
              alignment_report log [net; im; fm] fitness t_al ->
              as_number fitness = Some f ->
              exists b,
                check = (Ok (VBool b), c_warn :: t_tbr ++ t_al)
                /\ says_fitness_is_one b f))
  /\ (invoked token_replay_apply check ->
      forall n, In n names -> In n labels).
Proof.
  intros log c_warn check Hwarn Hlabels Hacts.
  pose proof (set_difference_of_strings names labels) as Hdiff.
  assert (Missing : (exists n, In n names /\ ~ In n labels) ->
                    check = (Ok (VBool false), [c_warn])).
  { intros (n & Hn & Hmiss).
    unfold check, __check_is_fit_petri_net.
    invoke_step Hwarn. lift_step Hlabels. lift_step Hacts.
    bind_step Hdiff.
    - rewrite truthy_missing.
      assert (F : forallb (fun a => existsb (hash_eqb a) (map VStr labels))
                    (map VStr names) = false).
      { destruct (forallb _ (map VStr names)) eqn:E; [ | reflexivity ].
        elim Hmiss. apply (proj1 (all_names_are_labels names labels) E).
        exact Hn. }
      rewrite F. reflexivity.
    - reflexivity. }
  split; [ apply petri_net_check_never_calls_footprints | ].
  split; [ exact Missing | ].
  split.
  - intros Hall tbr_fit t_tbr (tbr_conf & tbr_conf_res & Htbr & Htbr0 & Htbrfit).
    assert (F : forallb (fun a => existsb (hash_eqb a) (map VStr labels))
                  (map VStr names) = true)
      by (apply (proj2 (all_names_are_labels names labels)); exact Hall).
    split.
    + intros Hfit. unfold check, __check_is_fit_petri_net.
      invoke_step Hwarn. lift_step Hlabels. lift_step Hacts.
      bind_step Hdiff.
      rewrite truthy_missing, F. simpl negb. cbv iota.
      bind_step Htbr. lift_step Htbr0. lift_step Htbrfit.
      rewrite Hfit. reflexivity. all: traces.
    + intros Hunfit fitness t_al f
        (align_conf & align_conf_res & Hal & Hal0 & Halfit) Hnum.
      exists (float_eqb f (Fin 1)).
      split; [ | apply float_eqb_says_one ].
      unfold check, __check_is_fit_petri_net.
      invoke_step Hwarn. lift_step Hlabels. lift_step Hacts.
      bind_step Hdiff.
      rewrite truthy_missing, F. simpl negb. cbv iota.
      bind_step Htbr. lift_step Htbr0. lift_step Htbrfit.
      rewrite Hunfit.
      bind_step Hal. lift_step Hal0. lift_step Halfit.
      apply py_eq_float_of_number. exact Hnum. all: traces.
  - intros (c & Hin & Hfn) n Hn.
    destruct (in_dec string_dec n labels) as [I | NI]; [ exact I | exfalso ].
    rewrite Missing in Hin by (exists n; split; assumption).
    simpl in Hin. destruct Hin as [<- | []]. discriminate Hfn.
Qed.

End Cascade_on_nets.

Lemma C2_petri_net_cascade_witness :
  model_activities Examples.a_net = Ok (map VStr ["A"; "B"])
  /\ conformance.trace_activities Examples.trace_AC "concept:name"
     = Ok (map VStr ["A"; "C"])
  /\ @__check_is_fit_petri_net (Examples.cascade_world true false (Fin 1%Q))
       Examples.trace_AC Examples.a_net Examples.an_im Examples.a_fm "concept:name"
     = (Ok (VBool false),
        [Call event_log_deprecation_warning [Examples.trace_AC] []])
  /\ result (@__check_is_fit_petri_net (Examples.cascade_world true true (Fin 0%Q))
               Examples.trace_AB Examples.a_net Examples.an_im Examples.a_fm
               "concept:name") = Ok (VBool true)
  /\ result (@__check_is_fit_petri_net (Examples.cascade_world true false (Fin 1%Q))
               Examples.trace_AB Examples.a_net Examples.an_im Examples.a_fm
               "concept:name") = Ok (VBool true)
  /\ result (@__check_is_fit_petri_net
               (Examples.cascade_world true false (Fin (1 # 2)%Q))
               Examples.trace_AB Examples.a_net Examples.an_im Examples.a_fm
               "concept:name") = Ok (VBool false).
Proof.
  split; [ reflexivity | ]. split; [ reflexivity | ].
  assert (All : forall n, In n ["A"; "B"] -> In n ["A"; "B"]) by auto.
  assert (Rp : forall tbr q, exists t,
             @replay_report (Examples.cascade_world true tbr (Fin q))
               (single_trace_log Examples.trace_AB)
               Examples.a_net Examples.an_im Examples.a_fm (VBool tbr) t).
  { intros. unfold replay_report. do 3 eexists.
    repeat match goal with |- _ /\ _ => split end; reflexivity. }
  assert (Ra : forall tbr q, exists t,
             @alignment_report (Examples.cascade_world true tbr (Fin q))
               (single_trace_log Examples.trace_AB)
               [Examples.a_net; Examples.an_im; Examples.a_fm] (VFloat (Fin q)) t).
  { intros. unfold alignment_report. do 3 eexists.
    repeat match goal with |- _ /\ _ => split end; reflexivity. }
  assert (Tier3 : forall q, exists b,
             result (@__check_is_fit_petri_net
                       (Examples.cascade_world true false (Fin q))
                       Examples.trace_AB Examples.a_net Examples.an_im
                       Examples.a_fm "concept:name") = Ok (VBool b)
             /\ says_fitness_is_one b (Fin q)).
  { intros q.
    destruct (Rp false q) as [t_tbr Hrp]. destruct (Ra false q) as [t_al Hra].
    destruct (@C2_petri_net_cascade (Examples.cascade_world true false (Fin q))
                Examples.trace_AB Examples.a_net Examples.an_im Examples.a_fm
                VNone "concept:name" ["A"; "B"] ["A"; "B"]
                eq_refl eq_refl eq_refl) as (_ & _ & Hall & _).
    destruct (Hall All _ _ Hrp) as [_ Halign].
    destruct (Halign eq_refl _ _ (Fin q) Hra eq_refl) as (b & E & Hb).
    exists b. rewrite E. split; [ reflexivity | exact Hb ]. }
  split; [ | split; [ | split ] ].
  - destruct (@C2_petri_net_cascade (Examples.cascade_world true false (Fin 1%Q))
                Examples.trace_AC Examples.a_net Examples.an_im Examples.a_fm
                VNone "concept:name" ["A"; "B"] ["A"; "C"]
                eq_refl eq_refl eq_refl) as (_ & Hmissing & _).
    apply Hmissing. exists "C". split; [ simpl; auto | ].
    simpl. intros [E | [E | []]]; discriminate E.
  - destruct (Rp true 0%Q) as [t_tbr Hrp].
    destruct (@C2_petri_net_cascade (Examples.cascade_world true true (Fin 0%Q))
                Examples.trace_AB Examples.a_net Examples.an_im Examples.a_fm
                VNone "concept:name" ["A"; "B"] ["A"; "B"]
                eq_refl eq_refl eq_refl) as (_ & _ & Hall & _).
    destruct (Hall All _ _ Hrp) as [Hreplay _].
    rewrite (Hreplay eq_refl). reflexivity.
  - destruct (Tier3 1%Q) as (b & E & Hb). rewrite E.
    destruct b; [ reflexivity | ].
    assert (T : false = true) by (apply Hb; exists 1%Q; split; reflexivity).
    discriminate T.
  - destruct (Tier3 (1 # 2)%Q) as (b & E & Hb). rewrite E.
    destruct b; [ | reflexivity ].
    destruct Hb as [Hb _]. destruct (Hb eq_refl) as (q & Eq & E1).
    injection Eq as <-. discriminate E1.
Defined.

(** *** Properties of all the calls of a computation *)

Section All_calls.
Context `{World}.

Lemma all_calls_ret {A} P (a : A) : all_calls P (ret a).
Proof. constructor. Qed.

Lemma all_calls_lift {A} P (o : outcome A) : all_calls P (lift o).
Proof. constructor. Qed.

Lemma all_calls_bind {A B} P (m : M A) (k : A -> M B) :
  all_calls P m ->
  (forall a t, m = (Ok a, t) -> all_calls P (k a)) ->
  all_calls P (bind m k).
Proof.
  unfold all_calls, calls, bind. intros Hm Hk.
  destruct m as [[a | e] t]; simpl in *; [ | exact Hm ].
  specialize (Hk a t eq_refl). destruct (k a) as [r t']. simpl in *.
  apply Forall_app. split; assumption.
Qed.

Lemma all_calls_invoke P f a kw :
  P (Call f a kw) -> all_calls P (invoke f a kw).
Proof. intros Hc. unfold all_calls, invoke. simpl. constructor; auto. Qed.

Lemma all_calls_bind_invoke {B} P f a kw (k : pyval -> M B) :
  P (Call f a kw) ->
  (forall v, ext (Call f a kw) = Ok v -> all_calls P (k v)) ->
  all_calls P (bind (invoke f a kw) k).
Proof.
  intros Hc Hk. apply all_calls_bind; [ now apply all_calls_invoke | ].
  intros v t E. apply Hk. unfold invoke in E. congruence.
Qed.

End All_calls.

Ltac default_configured_call :=
  unfold default_configured; simpl;
  repeat match goal with |- _ /\ _ => split end; intros;
  repeat match goal with
         | I : _ \/ _ |- _ => destruct I
         | I : False |- _ => destruct I
         | I : (_, _) = (_, _) |- _ => inversion I; clear I; subst
         end;
  try discriminate; try reflexivity; eauto.

Section Default_keys.
Context `{World}.

Lemma log_prelude_default_configured log :
  all_calls default_configured
    (log_prelude log DEFAULT_ACTIVITY_KEY DEFAULT_TIMESTAMP_KEY DEFAULT_CASE_ID_KEY).
Proof.
  unfold log_prelude.
  apply all_calls_bind; [ destruct (negb _); constructor | intros ].
  apply all_calls_bind_invoke; [ default_configured_call | intros ].
  apply all_calls_bind_invoke; [ default_configured_call | intros ].
  destruct (truthy v0); [ | apply all_calls_ret ].
  apply all_calls_bind_invoke; [ default_configured_call | intros ].
  apply all_calls_ret.
Qed.

Lemma token_based_replay_default_configured log net im fm :
  all_calls default_configured
    (conformance_diagnostics_token_based_replay log net im fm
       DEFAULT_ACTIVITY_KEY DEFAULT_TIMESTAMP_KEY DEFAULT_CASE_ID_KEY).
Proof.
  unfold conformance_diagnostics_token_based_replay.
  apply all_calls_bind; [ apply log_prelude_default_configured | intros ].
  apply all_calls_bind_invoke; [ default_configured_call | intros ].
  apply all_calls_invoke. default_configured_call.
Qed.

Lemma alignments_default_configured log args mp :
  all_calls default_configured
    (conformance_diagnostics_alignments log args mp
       DEFAULT_ACTIVITY_KEY DEFAULT_TIMESTAMP_KEY DEFAULT_CASE_ID_KEY).
Proof.
  unfold conformance_diagnostics_alignments.
  apply all_calls_bind; [ apply log_prelude_default_configured | intros ].
  apply all_calls_bind_invoke; [ default_configured_call | intros props Hprops ].
  assert (Conv : all_calls default_configured
    (bind (invoke convert_to_petri_net args [])
       (fun converted =>
          bind (lift (unpack3 converted))
            (fun x => match x with
                      | (net, im, fm) =>
                          if mp then
                            invoke alignments_apply_multiprocessing
                              [log; net; im; fm] [("parameters", props)]
                          else
                            invoke alignments_apply [log; net; im; fm]
                              [("parameters", props)]
                      end)))).
  { apply all_calls_bind_invoke; [ default_configured_call | intros ].
    apply all_calls_bind; [ apply all_calls_lift | intros [[net im] fm] ? ? ].
    destruct mp; apply all_calls_invoke; default_configured_call. }
  cbv zeta.
  destruct args as [ | a0 [ | a1 [ | a2 [ | a3 rest ] ] ] ]; try exact Conv.
  - destruct (type_is a0 CProcessTree); [ | exact Conv ].
    destruct mp; apply all_calls_invoke; default_configured_call.
  - destruct (type_is a0 CPetriNet).
    + destruct mp; apply all_calls_invoke; default_configured_call.
    + destruct (type_is a0 CDict || type_is a0 CCounter); [ | exact Conv ].
      apply all_calls_invoke; default_configured_call.
Qed.

Lemma convert_to_fp_default_configured :
  forall args, all_calls default_configured (__convert_to_fp args).
Proof.
  fix IH 1. intros args.
  destruct args as [ | | | | | | c items | | ]; simpl.
  7: { destruct (class_eqb c CTuple).
       - destruct items as [ | a [ | b rest ] ].
         + apply all_calls_invoke; default_configured_call.
         + apply IH.
         + apply all_calls_invoke; default_configured_call.
       - destruct (type_is _ CList || type_is _ CDict);
           [ apply all_calls_ret | apply all_calls_invoke; default_configured_call ]. }
  all: first [ apply all_calls_ret
             | apply all_calls_invoke; default_configured_call
             | destruct (type_is _ CList || type_is _ CDict);
               [ apply all_calls_ret
               | apply all_calls_invoke; default_configured_call ] ].
Qed.

Lemma footprints_default_configured args :
  all_calls default_configured (conformance_diagnostics_footprints args).
Proof.
  unfold conformance_diagnostics_footprints.
  destruct args as [ | a0 rest ]; [ constructor | ].
  apply all_calls_bind; [ apply convert_to_fp_default_configured | intros ].
  apply all_calls_bind; [ apply convert_to_fp_default_configured | intros ].
  destruct (isinstance a CList); apply all_calls_invoke; default_configured_call.
Qed.

Lemma py_eq_float_default_configured (v : pyval) (x : Q) :
  all_calls default_configured (py_eq_float v x).
Proof.
  unfold py_eq_float.
  destruct (as_number v); [ apply all_calls_ret | ].
  destruct v; try (apply all_calls_ret);
    try (apply all_calls_invoke; default_configured_call);
    match goal with
    | |- all_calls _ (if ?b then _ else _) =>
        destruct b;
        [ apply all_calls_ret | apply all_calls_invoke; default_configured_call ]
    end.
Qed.

Lemma process_tree_check_default_configured trace tree :
  all_calls default_configured (__check_is_fit_process_tree trace tree).
Proof.
  unfold __check_is_fit_process_tree.
  apply all_calls_bind_invoke; [ default_configured_call | intros ].
  cbv zeta.
  apply all_calls_bind_invoke; [ default_configured_call | intros ].
  apply all_calls_bind_invoke; [ default_configured_call | intros ].
  apply all_calls_bind; [ apply footprints_default_configured | intros ].
  apply all_calls_bind; [ apply all_calls_lift | intros ].
  apply all_calls_bind; [ apply all_calls_lift | intros ].
  destruct (negb _); [ apply all_calls_ret | ].
  apply all_calls_bind_invoke; [ default_configured_call | intros ].
  apply all_calls_bind; [ apply all_calls_lift | intros [[net im] fm] ? ? ].
  apply all_calls_bind; [ apply token_based_replay_default_configured | intros ].
  apply all_calls_bind; [ apply all_calls_lift | intros ].
  apply all_calls_bind; [ apply all_calls_lift | intros ].
  destruct (truthy _); [ apply all_calls_ret | ].
  apply all_calls_bind; [ apply alignments_default_configured | intros ].
  apply all_calls_bind; [ apply all_calls_lift | intros ].
  apply all_calls_bind; [ apply all_calls_lift | intros ].
  apply py_eq_float_default_configured.
Qed.

End Default_keys.

(** *** C6 and C10: promotion of a variant, and the activity key *)

Lemma promote_variant_map (activity_key : string) (acts : list pyval) :
  promote_variant activity_key acts
  = VSeq CTrace (map (fun act => VMap CEvent [(VStr activity_key, act)]) acts).
Proof.
  unfold promote_variant. f_equal.
  enough (G : forall init,
             fold_left (fun events act =>
                          events ++ [VMap CEvent [(VStr activity_key, act)]])
               acts init
             = init ++ map (fun act => VMap CEvent [(VStr activity_key, act)]) acts)
    by apply (G []).
  induction acts as [ | a acts IH ]; intros init; simpl.
  - now rewrite app_nil_r.
  - rewrite IH, <- app_assoc. reflexivity.
Qed.

Section Promotion.
Context `{World}.

Lemma coerced_run model m t :
  coerced model m t ->
  try_except (invoke convert_to_process_tree model [])
    (fun _ => invoke convert_to_petri_net model [])
  = (Ok m, t).
Proof.
  unfold try_except, invoke.
  intros [[E ->] | (e & E1 & E2 & ->)].
  - rewrite E. reflexivity.
  - rewrite E1, E2. reflexivity.
Qed.

(** C6.  A first argument that is not a [Trace] is promoted, after the
    model has been coerced: the activities of the variant are obtained
    from [get_activities_from_variant], and the promoted trace has one
    event per activity, in the same order, the [i]-th event being the
    dictionary that maps the configured activity key to the [i]-th
    activity.  The cascade that fits the coerced model is then run on the
    promoted trace, and its outcome is the outcome of the check. *)
Theorem C6_variant_is_promoted
    (variant : pyval) (model : list pyval) (activity_key : string)
    (m activities : pyval) (acts : list pyval) (t_conv : list call) :
  let c_var := Call get_activities_from_variant [variant] [] in
  let promoted :=
    VSeq CTrace (map (fun act => VMap CEvent [(VStr activity_key, act)]) acts) in
  isinstance variant CTrace = false ->
  coerced model m t_conv ->
  ext c_var = Ok activities ->
  py_iter activities = Ok acts ->
  promote_variant activity_key acts = promoted
  /\ (forall events, promoted = VSeq CTrace events ->
      List.length events = List.length acts
      /\ forall i act, nth_error acts i = Some act ->
           nth_error events i = Some (VMap CEvent [(VStr activity_key, act)]))
  /\ (isinstance m CProcessTree = true ->
      check_is_fitting (variant :: model) activity_key
      = (result (__check_is_fit_process_tree promoted m),
         t_conv ++ c_var :: calls (__check_is_fit_process_tree promoted m)))
  /\ (forall net im fm,
      isinstance m CProcessTree = false ->
      isinstance m CTuple = true ->
      getitem_nat m 0 = Ok net ->
      isinstance net CPetriNet = true ->
      getitem_nat m 1 = Ok im ->
      getitem_nat m 2 = Ok fm ->
      check_is_fitting (variant :: model) activity_key
      = (result (__check_is_fit_petri_net promoted net im fm activity_key),
         t_conv ++ c_var
         :: calls (__check_is_fit_petri_net promoted net im fm activity_key))).
Proof.
  intros c_var promoted Hnot Hco Hvar Hiter.
  assert (P : bind (invoke get_activities_from_variant [variant] [])
                (fun activities =>
                   bind (lift (py_iter activities))
                     (fun acts => ret (promote_variant activity_key acts)))
              = (Ok promoted, [c_var])).
  { invoke_step Hvar. lift_step Hiter.
    rewrite promote_variant_map. reflexivity. }
  split; [ apply promote_variant_map | ].
  split.
  { intros events E. injection E as <-. split.
    - apply length_map.
    - intros i act Hi. rewrite nth_error_map, Hi. reflexivity. }
  split.
  - intros Htree. unfold check_is_fitting.
    bind_step (coerced_run Hco).
    rewrite Hnot. simpl negb. cbv iota.
    bind_step P.
    rewrite Htree. symmetry. apply pair_result_calls.
    all: traces.
  - intros net im fm Hntree Htuple H0 Hnet H1 H2. unfold check_is_fitting.
    bind_step (coerced_run Hco).
    rewrite Hnot. simpl negb. cbv iota.
    bind_step P.
    rewrite Hntree, Htuple.
    lift_step H0. rewrite Hnet.
    lift_step H0. lift_step H1. lift_step H2.
    symmetry. apply pair_result_calls.
    all: traces.
Qed.

End Promotion.

Lemma C6_variant_is_promoted_witness :
  let W := Examples.cascade_world true true (Fin 1%Q) in
  promote_variant "concept:name" [VStr "A"; VStr "B"] = Examples.trace_AB
  /\ @check_is_fitting W [Examples.variant_AB; Examples.a_tree] "concept:name"
     = (result (@__check_is_fit_process_tree W Examples.trace_AB Examples.a_tree),
        [Call convert_to_process_tree [Examples.a_tree] [];
         Call get_activities_from_variant [Examples.variant_AB] []]
        ++ calls (@__check_is_fit_process_tree W Examples.trace_AB Examples.a_tree)).
Proof.
  intros W.
  assert (Co : @coerced W [Examples.a_tree] Examples.a_tree
                 [Call convert_to_process_tree [Examples.a_tree] []])
    by (left; split; reflexivity).
  destruct (@C6_variant_is_promoted W Examples.variant_AB [Examples.a_tree]
              "concept:name" Examples.a_tree
              (VSeq CList [VStr "A"; VStr "B"]) [VStr "A"; VStr "B"] _
              eq_refl Co eq_refl eq_refl) as [Hp [_ [Htree _]]].
  split; [ exact Hp | ].
  rewrite (Htree eq_refl). reflexivity.
Defined.

Section Activity_key.
Context `{World}.

Lemma promoted_events_lack_other_keys (activity_key other : string) acts :
  String.eqb activity_key other = false ->
  Forall (fun ev => getitem_str ev other = Raise (Exc EKeyError [VStr other]))
    (map (fun act => VMap CEvent [(VStr activity_key, act)]) acts).
Proof.
  intros Hne. apply Forall_forall. intros ev Hin.
  apply in_map_iff in Hin. destruct Hin as (act & <- & _).
  unfold getitem_str, dict_get. simpl. unfold key_is. simpl.
  rewrite Hne. reflexivity.
Qed.

(** C10.  The process-tree path never sees the activity key of the
    caller.  Every call made by [__check_is_fit_process_tree] is
    configured with the defaults: an [activity_key] keyword is
    ["concept:name"], a [parameters] dictionary is one that
    [get_properties] built for the default keys, and the footprint
    functions get no key at all.  For a structured trace and a model
    coerced to a process tree, the outcome and the calls of
    [check_is_fitting] are the same for every activity key.  The key only
    shapes a promoted trace, whose events then lack the default attribute
    that the engines are told to read. *)
Theorem C10_process_tree_path_ignores_activity_key
    (trace : pyval) (model : list pyval) (m : pyval) (t_conv : list call) :
  coerced model m t_conv ->
  isinstance m CProcessTree = true ->
  all_calls default_configured (__check_is_fit_process_tree trace m)
  /\ (isinstance trace CTrace = true ->
      forall activity_key,
        check_is_fitting (trace :: model) activity_key
        = (result (__check_is_fit_process_tree trace m),
           t_conv ++ calls (__check_is_fit_process_tree trace m)))
  /\ (isinstance trace CTrace = false ->
      forall activity_key activities acts,
        ext (Call get_activities_from_variant [trace] []) = Ok activities ->
        py_iter activities = Ok acts ->
        String.eqb activity_key DEFAULT_ACTIVITY_KEY = false ->
        exists events,
          check_is_fitting (trace :: model) activity_key
          = (result (__check_is_fit_process_tree (VSeq CTrace events) m),
             t_conv ++ Call get_activities_from_variant [trace] []
             :: calls (__check_is_fit_process_tree (VSeq CTrace events) m))
          /\ all_calls default_configured
               (__check_is_fit_process_tree (VSeq CTrace events) m)
          /\ Forall (fun ev =>
                       getitem_str ev DEFAULT_ACTIVITY_KEY
                       = Raise (Exc EKeyError [VStr DEFAULT_ACTIVITY_KEY]))
               events).
Proof.
  intros Hco Htree.
  split; [ apply process_tree_check_default_configured | ].
  split.
  - intros Htrace activity_key. unfold check_is_fitting.
    bind_step (coerced_run Hco).
    rewrite Htrace. simpl negb. cbv iota.
    eapply step_bind; [ reflexivity | cbv beta | ].
    rewrite Htree. symmetry. apply pair_result_calls.
    all: traces.
  - intros Hnot activity_key activities acts Hvar Hiter Hne.
    exists (map (fun act => VMap CEvent [(VStr activity_key, act)]) acts).
    split; [ | split ].
    + unfold check_is_fitting.
      bind_step (coerced_run Hco).
      rewrite Hnot. simpl negb. cbv iota.
      eapply step_bind.
      { invoke_step Hvar. lift_step Hiter.
        rewrite promote_variant_map. reflexivity. }
      cbv beta. rewrite Htree. symmetry. apply pair_result_calls.
      all: traces.
    + apply process_tree_check_default_configured.
    + now apply promoted_events_lack_other_keys.
Qed.

End Activity_key.

Lemma C10_process_tree_path_witness :
  let W := Examples.cascade_world true true (Fin 1%Q) in
  @check_is_fitting W [Examples.trace_AB; Examples.a_tree] "org:activity"
  = @check_is_fitting W [Examples.trace_AB; Examples.a_tree] "concept:name".
Proof.
  intros W.
  assert (Co : @coerced W [Examples.a_tree] Examples.a_tree
                 [Call convert_to_process_tree [Examples.a_tree] []])
    by (left; split; reflexivity).
  destruct (@C10_process_tree_path_ignores_activity_key W Examples.trace_AB
              [Examples.a_tree] Examples.a_tree _ Co eq_refl) as [_ [Hkey _]].
  rewrite (Hkey eq_refl "org:activity"), (Hkey eq_refl "concept:name").
  reflexivity.
Defined.

(** *** C8: the LP solver wrapper *)

Lemma round_half_even_nearest (q : Q) :
  (Qabs (inject_Z (round_half_even q) - q) <= 1 # 2)%Q.
Proof.
  unfold round_half_even.
  pose proof (Qfloor_le q) as Hlo.
  pose proof (Qlt_floor q) as Hhi.
  rewrite inject_Z_plus in Hhi. change (inject_Z 1) with 1%Q in Hhi.
  apply Qabs_Qle_condition.
  destruct (Qcompare (q - inject_Z (Qfloor q)) (1 # 2)) eqn:C.
  - rewrite <- Qeq_alt in C.
    destruct (Z.even (Qfloor q));
      [ | rewrite inject_Z_plus; change (inject_Z 1) with 1%Q ];
      split; lra.
  - rewrite <- Qlt_alt in C. split; lra.
  - rewrite <- Qgt_alt in C. rewrite inject_Z_plus.
    change (inject_Z 1) with 1%Q. split; lra.
Qed.

Lemma round_half_even_of_integer (z : Z) : round_half_even (inject_Z z) = z.
Proof.
  unfold round_half_even. rewrite Qfloor_Z.
  assert (C : (inject_Z z - inject_Z z ?= 1 # 2)%Q = Lt)
    by (rewrite <- Qlt_alt; lra).
  rewrite C. reflexivity.
Qed.

Lemma round_half_even_tie (q : Q) :
  (q - inject_Z (Qfloor q) == 1 # 2)%Q -> Z.even (round_half_even q) = true.
Proof.
  intros E. unfold round_half_even. rewrite Qeq_alt in E. rewrite E.
  destruct (Z.even (Qfloor q)) eqn:Ev; [ exact Ev | ].
  rewrite Z.even_add, Ev. reflexivity.
Qed.

Lemma py_round_nearest (v : pyval) (q : Q) :
  as_number v = Some (Fin q) ->
  py_round v = Ok (VInt (round_half_even q)) /\ nearest_integer (round_half_even q) q.
Proof.
  intros N. split; [ | apply round_half_even_nearest ].
  destruct v as [ | b | z | f | | | | | ]; try discriminate N; simpl in *.
  - injection N as <-. destruct b; reflexivity.
  - injection N as <-. now rewrite round_half_even_of_integer.
  - injection N as ->. reflexivity.
Qed.

Lemma round_each_nearest (ys : list pyval) (qs : list Q) :
  Forall2 (fun y q => as_number y = Some (Fin q)) ys qs ->
  scipy_solver.round_each ys = Ok (map (fun q => VInt (round_half_even q)) qs).
Proof.
  induction 1 as [ | y q ys qs Hy _ IH ]; simpl; [ reflexivity | ].
  destruct (py_round_nearest _ Hy) as [-> _]. rewrite IH. reflexivity.
Qed.

(** C8.  [apply] looks up the integrality parameter and then calls the
    backend exactly once, with the cost vector as it was given, the four
    constraint arguments as they were given under [A_ub], [b_ub], [A_eq],
    [b_eq], the method ["revised simplex"] and the integrality found; the
    outcome of [apply] is the outcome of that call.  On a solution whose
    objective value is the number [q], [get_prim_obj_from_sol] returns an
    integer nearest to [q] (the even one on a tie); on a solution whose
    point has the numbers [qs] as coordinates, [get_points_from_sol]
    returns the list of the integers nearest to each. *)
Theorem C8_lp_wrapper_forwards_and_rounds `{World} :
  (forall c Aub bub Aeq beq parameters integrality,
      let parameters' :=
        match parameters with VNone => VMap CDict [] | _ => parameters end in
      let c_param := Call exec_utils_get_param_value
                       [VStr "integrality"; parameters'; VNone] [] in
      let c_lp := Call linprog [c]
                    [("A_ub", Aub); ("b_ub", bub); ("A_eq", Aeq); ("b_eq", beq);
                     ("method", VStr "revised simplex");
                     ("integrality", integrality)] in
      ext c_param = Ok integrality ->
      scipy_solver.apply c Aub bub Aeq beq parameters = (ext c_lp, [c_param; c_lp]))
  /\ (forall sol parameters f q,
      getattr sol "fun" = Ok f ->
      as_number f = Some (Fin q) ->
      scipy_solver.get_prim_obj_from_sol sol parameters
      = Ok (VInt (round_half_even q))
      /\ nearest_integer (round_half_even q) q
      /\ ((q - inject_Z (Qfloor q) == 1 # 2)%Q ->
          Z.even (round_half_even q) = true))
  /\ (forall sol parameters x ys qs,
      getattr sol "x" = Ok x ->
      py_iter x = Ok ys ->
      Forall2 (fun y q => as_number y = Some (Fin q)) ys qs ->
      scipy_solver.get_points_from_sol sol parameters
      = Ok (VSeq CList (map (fun q => VInt (round_half_even q)) qs))
      /\ Forall (fun q => nearest_integer (round_half_even q) q) qs).
Proof.
  split; [ | split ].
  - intros c Aub bub Aeq beq parameters integrality parameters' c_param c_lp E.
    unfold scipy_solver.apply. fold parameters'.
    change scipy_solver.INTEGRALITY with "integrality".
    unfold invoke at 1. fold c_param. rewrite E. unfold bind at 1.
    change scipy_solver.METHOD with "revised simplex".
    unfold invoke. fold c_lp. unfold bind, ret.
    destruct (ext c_lp); reflexivity.
  - intros sol parameters f q Hf Hq.
    unfold scipy_solver.get_prim_obj_from_sol. rewrite Hf.
    destruct (py_round_nearest _ Hq) as [-> Hn].
    split; [ reflexivity | ]. split; [ exact Hn | apply round_half_even_tie ].
  - intros sol parameters x ys qs Hx Hys Hqs.
    unfold scipy_solver.get_points_from_sol. rewrite Hx, Hys.
    rewrite (round_each_nearest Hqs).
    split; [ reflexivity | ].
    apply Forall_forall. intros q _. apply round_half_even_nearest.
Qed.

Lemma C8_lp_wrapper_witness :
  scipy_solver.get_prim_obj_from_sol Examples.a_solution VNone = Ok (VInt 2)
  /\ scipy_solver.get_points_from_sol Examples.a_solution VNone
     = Ok (VSeq CList [VInt 2; VInt 1])
  /\ result (@scipy_solver.apply Examples.lp_world
               (VSeq CList [VInt 1; VInt 1]) VNone VNone VNone VNone VNone)
     = Ok Examples.a_solution.
Proof.
  destruct (@C8_lp_wrapper_forwards_and_rounds Examples.lp_world)
    as [Happly [Hobj Hpts]].
  split; [ | split ].
  - destruct (Hobj Examples.a_solution VNone (VFloat (Fin (5 # 2))) (5 # 2)%Q
                eq_refl eq_refl) as [-> _].
    reflexivity.
  - destruct (Hpts Examples.a_solution VNone
                (VSeq CNdarray [VFloat (Fin (3 # 2)); VFloat (Fin (7 # 10))])
                [VFloat (Fin (3 # 2)); VFloat (Fin (7 # 10))]
                [(3 # 2)%Q; (7 # 10)%Q] eq_refl eq_refl) as [-> _].
    + repeat constructor.
    + reflexivity.
  - rewrite (Happly (VSeq CList [VInt 1; VInt 1]) VNone VNone VNone VNone VNone
               VNone eq_refl).
    reflexivity.
Defined.

(** *** Assignment to an entry of a dictionary *)

Lemma dict_get_set (k : string) (v : pyval) (items : list (pyval * pyval)) :
  dict_get k (dict_set k v items) = Some v.
Proof.
  unfold dict_get.
  induction items as [ | kv items IH ]; simpl.
  - unfold key_is. simpl. rewrite String.eqb_refl. reflexivity.
  - destruct (key_is k kv) eqn:E; simpl.
    + assert (E' : key_is k (fst kv, v) = true) by exact E.
      rewrite E'. reflexivity.
    + rewrite E. exact IH.
Qed.

(* ================================================================== *)
(** ** Further properties of the two modules *)
(* ================================================================== *)

Import Shapes.

(** *** The footprint bridge *)

Section Footprint_bridge.
Context `{World}.

Lemma convert_to_fp_of_footprints (v : pyval) :
  is_footprints v = true -> __convert_to_fp v = (Ok v, []).
Proof.
  unfold is_footprints, type_is. intros Hv.
  destruct v as [ | | | | | | c items | c items | c i a ]; simpl in Hv;
    try discriminate Hv; simpl.
  - assert (Hc : class_eqb c CTuple = false)
      by (destruct c; simpl in *; congruence).
    rewrite Hc. unfold type_is. simpl. rewrite Hv. reflexivity.
  - unfold type_is. simpl. rewrite Hv. reflexivity.
  - unfold type_is. simpl. rewrite Hv. reflexivity.
Qed.

Lemma convert_to_fp_of_object (v : pyval) :
  needs_discovery v = true ->
  __convert_to_fp v = invoke discover_footprints [v] [].
Proof.
  unfold needs_discovery, is_footprints, type_is. intros Hv.
  apply andb_true_iff in Hv. destruct Hv as [Ht Hf].
  apply negb_true_iff in Ht. apply negb_true_iff in Hf.
  destruct v as [ | | | | | | c items | c items | c i a ]; simpl in *;
    try reflexivity; unfold type_is; simpl.
  - rewrite Ht, Hf. reflexivity.
  - rewrite Hf. reflexivity.
  - rewrite Hf. reflexivity.
Qed.

Lemma convert_to_fp_nested (n : nat) (v : pyval) :
  __convert_to_fp (nested (S n) v) = __convert_to_fp (nested n v).
Proof. reflexivity. Qed.

Lemma convert_to_fp_nested_footprints (n : nat) (v : pyval) :
  is_footprints v = true ->
  __convert_to_fp (nested n v) = (Ok v, []).
Proof.
  intros Hv. induction n as [ | n IH ].
  - simpl. now apply convert_to_fp_of_footprints.
  - rewrite convert_to_fp_nested. exact IH.
Qed.

(** X1.  Footprints computed beforehand (a list or a dict) come back
    from [__convert_to_fp] unchanged and without any discovery call,
    however many one-element tuples the argument passing has wrapped
    around them. *)
Theorem X1_footprints_pass_through (n : nat) (v : pyval) :
  is_footprints v = true ->
  __convert_to_fp (nested n v) = (Ok v, [])
  /\ ~ invoked discover_footprints (__convert_to_fp (nested n v)).
Proof.
  intros Hv. rewrite (convert_to_fp_nested_footprints n v Hv).
  split; [ reflexivity | ]. intros (c & [] & _).
Qed.

(** X2.  Whatever its argument, [__convert_to_fp] makes at most one call
    to a collaborator, and that call is a footprint discovery. *)
Theorem X2_at_most_one_discovery :
  forall args,
    (List.length (calls (__convert_to_fp args)) <= 1)%nat
    /\ Forall (fun c => fn c = discover_footprints) (calls (__convert_to_fp args)).
Proof.
  fix IH 1. intros args.
  destruct args as [ | | | | | | c items | c items | c i a ]; simpl;
    try (split; [ apply Nat.le_refl | repeat constructor ]).
  - destruct (class_eqb c CTuple).
    + destruct items as [ | a [ | b rest ] ].
      * split; [ apply Nat.le_refl | repeat constructor ].
      * apply IH.
      * split; [ apply Nat.le_refl | repeat constructor ].
    + destruct (type_is _ CList || type_is _ CDict); simpl;
        split; auto; repeat constructor.
  - destruct (type_is _ CList || type_is _ CDict); simpl;
      split; auto; repeat constructor.
  - destruct (type_is _ CList || type_is _ CDict); simpl;
      split; auto; repeat constructor.
Qed.

(** X3.  On footprints computed beforehand, the footprint diagnostics
    make a single call, the comparison itself, in the trace-by-trace
    variant when the footprints of the log are a list and in the
    whole-log variant when they are a dict; the outcome is the outcome
    of that call. *)
Theorem X3_precomputed_footprints_are_compared_directly (fp1 fp2 : pyval) :
  is_footprints fp1 = true ->
  is_footprints fp2 = true ->
  let variant :=
    if type_is fp1 CList
    then VEnum "footprints_conformance.Variants.TRACE_EXTENSIVE"
    else VEnum "footprints_conformance.Variants.LOG_EXTENSIVE" in
  let c := Call footprints_conformance_apply [fp1; fp2] [("variant", variant)] in
  conformance_diagnostics_footprints [fp1; fp2] = (ext c, [c]).
Proof.
  intros H1 H2 variant c.
  assert (Hi : isinstance fp1 CList = type_is fp1 CList).
  { unfold is_footprints, type_is, isinstance in *.
    destruct fp1 as [ | | | | | | c1 i1 | c1 i1 | c1 o1 a1 ]; simpl in H1;
      try discriminate H1; simpl type_of in *;
      destruct c1; simpl in H1; try discriminate H1; reflexivity. }
  subst c variant. unfold conformance_diagnostics_footprints.
  destruct (type_is fp1 CList).
  - bind_step (convert_to_fp_nested_footprints 1 fp1 H1).
    bind_step (convert_to_fp_nested_footprints 2 fp2 H2).
    rewrite Hi. reflexivity. all: reflexivity.
  - bind_step (convert_to_fp_nested_footprints 1 fp1 H1).
    bind_step (convert_to_fp_nested_footprints 2 fp2 H2).
    rewrite Hi. reflexivity. all: reflexivity.
Qed.

(** X4.  A model given as several arguments (a Petri net with its two
    markings, say) after footprints of the log computed beforehand is
    turned into footprints by one discovery call that receives exactly
    these arguments; the comparison then gets the footprints of the log
    and the discovered ones. *)
Theorem X4_model_arguments_are_discovered_together
    (fp1 a b fp2 : pyval) (more : list pyval) :
  is_footprints fp1 = true ->
  ext (Call discover_footprints (a :: b :: more) []) = Ok fp2 ->
  let variant :=
    if type_is fp1 CList
    then VEnum "footprints_conformance.Variants.TRACE_EXTENSIVE"
    else VEnum "footprints_conformance.Variants.LOG_EXTENSIVE" in
  let c := Call footprints_conformance_apply [fp1; fp2] [("variant", variant)] in
  conformance_diagnostics_footprints (fp1 :: a :: b :: more)
  = (ext c, [Call discover_footprints (a :: b :: more) []; c]).
Proof.
  intros H1 H2 variant c.
  assert (Hi : isinstance fp1 CList = type_is fp1 CList).
  { unfold is_footprints, type_is, isinstance in *.
    destruct fp1 as [ | | | | | | c1 i1 | c1 i1 | c1 o1 a1 ]; simpl in H1;
      try discriminate H1; simpl type_of in *;
      destruct c1; simpl in H1; try discriminate H1; reflexivity. }
  assert (D : __convert_to_fp (VSeq CTuple [VSeq CTuple (a :: b :: more)])
              = (Ok fp2, [Call discover_footprints (a :: b :: more) []])).
  { simpl. unfold invoke. rewrite H2. reflexivity. }
  subst c variant. unfold conformance_diagnostics_footprints.
  destruct (type_is fp1 CList).
  - bind_step (convert_to_fp_nested_footprints 1 fp1 H1).
    bind_step D. rewrite Hi. reflexivity. all: reflexivity.
  - bind_step (convert_to_fp_nested_footprints 1 fp1 H1).
    bind_step D. rewrite Hi. reflexivity. all: reflexivity.
Qed.

(** X5.  [fitness_footprints] on a log and a model that are not
    footprints yet discovers the footprints of each of them twice: once
    inside the diagnostics and once more for the evaluation, which then
    receives both footprints and the diagnostics. *)
Theorem X5_fitness_footprints_discovers_twice
    (log model fp_log fp_model fp_conf : pyval) :
  needs_discovery log = true ->
  needs_discovery model = true ->
  let d_log := Call discover_footprints [log] [] in
  let d_model := Call discover_footprints [model] [] in
  let variant :=
    if isinstance fp_log CList
    then VEnum "footprints_conformance.Variants.TRACE_EXTENSIVE"
    else VEnum "footprints_conformance.Variants.LOG_EXTENSIVE" in
  let c_conf := Call footprints_conformance_apply [fp_log; fp_model]
                  [("variant", variant)] in
  let c_fit := Call evaluation_fp_fitness [fp_log; fp_model; fp_conf] [] in
  ext d_log = Ok fp_log ->
  ext d_model = Ok fp_model ->
  ext c_conf = Ok fp_conf ->
  fitness_footprints [log; model]
  = (ext c_fit, [d_log; d_model; c_conf; d_log; d_model; c_fit]).
Proof.
  intros Hl Hm d_log d_model variant c_conf c_fit El Em Ec.
  assert (Dl : __convert_to_fp (VSeq CTuple [log]) = (Ok fp_log, [d_log])).
  { change (VSeq CTuple [log]) with (nested 1 log).
    rewrite convert_to_fp_nested. simpl nested.
    rewrite (convert_to_fp_of_object _ Hl). unfold invoke.
    fold d_log. rewrite El. reflexivity. }
  assert (Dm : __convert_to_fp (VSeq CTuple [VSeq CTuple [model]])
               = (Ok fp_model, [d_model])).
  { change (VSeq CTuple [VSeq CTuple [model]]) with (nested 2 model).
    rewrite !convert_to_fp_nested. simpl nested.
    rewrite (convert_to_fp_of_object _ Hm). unfold invoke.
    fold d_model. rewrite Em. reflexivity. }
  assert (C : conformance_diagnostics_footprints [log; model]
              = (Ok fp_conf, [d_log; d_model; c_conf])).
  { unfold conformance_diagnostics_footprints.
    subst c_conf variant. destruct (isinstance fp_log CList) eqn:Hi.
    - bind_step Dl. bind_step Dm. rewrite Hi. unfold invoke. rewrite Ec.
      reflexivity. all: reflexivity.
    - bind_step Dl. bind_step Dm. rewrite Hi. unfold invoke. rewrite Ec.
      reflexivity. all: reflexivity. }
  unfold fitness_footprints.
  bind_step C. bind_step Dl. bind_step Dm. reflexivity. all: reflexivity.
Qed.

(** X24.  [precision_footprints] never runs the footprint comparison;
    on footprints computed beforehand its only call is the precision
    evaluation of the two footprints, whose outcome it returns. *)
Theorem X24_precision_footprints_only_evaluates (fp1 fp2 : pyval) :
  is_footprints fp1 = true ->
  is_footprints fp2 = true ->
  let c := Call evaluation_fp_precision [fp1; fp2] [] in
  precision_footprints [fp1; fp2] = (ext c, [c])
  /\ forall args,
       never_calls [footprints_conformance_apply; evaluation_fp_fitness]
         (precision_footprints args).
Proof.
  intros H1 H2 c. split.
  - unfold precision_footprints.
    bind_step (convert_to_fp_nested_footprints 1 fp1 H1).
    bind_step (convert_to_fp_nested_footprints 2 fp2 H2).
    reflexivity. all: reflexivity.
  - intros args. unfold precision_footprints.
    destruct args as [ | a0 rest ]; [ apply never_calls_raise | ].
    apply never_calls_bind;
      [ apply convert_to_fp_never_calls; not_listed | intros ].
    apply never_calls_bind;
      [ apply convert_to_fp_never_calls; not_listed | intros ].
    apply never_calls_invoke. not_listed.
Qed.

End Footprint_bridge.

(** *** The alignment router *)

Section Alignment_router.
Context `{World}.

Lemma router_falls_back (log : pyval) (args : list pyval) (mp : bool)
    (ak tk ck : string) (properties : pyval) (pre : list call) :
  log_prelude log ak tk ck = (Ok tt, pre) ->
  ext (get_properties_call log ak tk ck) = Ok properties ->
  routed_directly args = false ->
  forall (r : outcome pyval) (t : list call),
    bind (invoke convert_to_petri_net args [])
      (fun converted =>
         bind (lift (unpack3 converted))
           (fun x => match x with
                     | (net, im, fm) =>
                         if mp then
                           invoke alignments_apply_multiprocessing
                             [log; net; im; fm] [("parameters", properties)]
                         else
                           invoke alignments_apply [log; net; im; fm]
                             [("parameters", properties)]
                     end))
    = (r, t) ->
    conformance_diagnostics_alignments log args mp ak tk ck
    = (r, pre ++ get_properties_call log ak tk ck :: t).
Proof.
  intros Hpre Hprops Hshape r t Hconv.
  unfold conformance_diagnostics_alignments.
  bind_step Hpre. invoke_step Hprops.
  - destruct args as [ | a0 [ | a1 [ | a2 [ | a3 rest ] ] ] ];
      simpl in Hshape; try exact Hconv.
    + rewrite Hshape. exact Hconv.
    + apply orb_false_iff in Hshape. destruct Hshape as [Hs Hc].
      apply orb_false_iff in Hs. destruct Hs as [Hp Hd].
      rewrite Hp, Hd, Hc. exact Hconv.
  - reflexivity.
Qed.

(** X6.  With [multi_processing] left [False], the alignment router hands
    an exact [PetriNet] with its two markings to the sequential [apply]
    of the Petri-net alignments and an exact [ProcessTree] to the
    sequential [apply] of the process-tree alignments; that call is the
    last one and its outcome is the outcome of the router. *)
Theorem X6_alignment_router_sequential
    (log properties : pyval) (ak tk ck : string) (pre : list call) :
  log_prelude log ak tk ck = (Ok tt, pre) ->
  ext (get_properties_call log ak tk ck) = Ok properties ->
  (forall net im fm,
      type_is net CPetriNet = true ->
      let c := Call alignments_apply [log; net; im; fm]
                 (parameters_kw properties) in
      conformance_diagnostics_alignments log [net; im; fm] false ak tk ck
      = (ext c, pre ++ [get_properties_call log ak tk ck; c]))
  /\ (forall tree,
      type_is tree CProcessTree = true ->
      let c := Call search_graph_pt_apply [log; tree]
                 (parameters_kw properties) in
      conformance_diagnostics_alignments log [tree] false ak tk ck
      = (ext c, pre ++ [get_properties_call log ak tk ck; c])).
Proof.
  intros Hpre Hprops.
  split; intros; unfold conformance_diagnostics_alignments;
    bind_step Hpre; [ invoke_step Hprops | | invoke_step Hprops | ];
    try reflexivity; rewrite H0; reflexivity.
Qed.

(** X7.  Model arguments of any other shape (a BPMN object, an instance
    of a subclass of [PetriNet], two or four arguments, ...) are first
    converted by [convert_to_petri_net]; the three components of its
    result go to the Petri-net alignments, in the parallel variant when
    the flag is set and in the sequential one otherwise. *)
Theorem X7_alignment_router_converts_other_models
    (log properties converted net im fm : pyval) (args : list pyval)
    (ak tk ck : string) (pre : list call) :
  log_prelude log ak tk ck = (Ok tt, pre) ->
  ext (get_properties_call log ak tk ck) = Ok properties ->
  routed_directly args = false ->
  ext (Call convert_to_petri_net args []) = Ok converted ->
  unpack3 converted = Ok (net, im, fm) ->
  forall multi_processing,
    let engine := if multi_processing : bool
                  then alignments_apply_multiprocessing
                  else alignments_apply in
    let c := Call engine [log; net; im; fm] (parameters_kw properties) in
    conformance_diagnostics_alignments log args multi_processing ak tk ck
    = (ext c, pre ++ [get_properties_call log ak tk ck;
                      Call convert_to_petri_net args []; c]).
Proof.
  intros Hpre Hprops Hshape Hconv Hunpack mp engine c.
  apply (router_falls_back _ _ Hpre Hprops Hshape).
  invoke_step Hconv. lift_step Hunpack.
  subst c engine. destruct mp; reflexivity.
Qed.

(** X8.  When the model arguments have none of the shapes routed
    directly and [convert_to_petri_net] raises, the alignment router
    raises the same exception, and no alignment engine has been
    called. *)
Theorem X8_alignment_router_unsupported_model
    (log properties : pyval) (args : list pyval) (multi_processing : bool)
    (ak tk ck : string) (pre : list call) (e : pyexc) :
  log_prelude log ak tk ck = (Ok tt, pre) ->
  ext (get_properties_call log ak tk ck) = Ok properties ->
  routed_directly args = false ->
  ext (Call convert_to_petri_net args []) = Raise e ->
  conformance_diagnostics_alignments log args multi_processing ak tk ck
  = (Raise e, pre ++ [get_properties_call log ak tk ck;
                      Call convert_to_petri_net args []])
  /\ never_calls ALIGNMENT_ENGINES
       (conformance_diagnostics_alignments log args multi_processing ak tk ck).
Proof.
  intros Hpre Hprops Hshape Hconv.
  assert (E : conformance_diagnostics_alignments log args multi_processing ak tk ck
              = (Raise e, pre ++ [get_properties_call log ak tk ck;
                                  Call convert_to_petri_net args []])).
  { apply (router_falls_back _ _ Hpre Hprops Hshape).
    unfold invoke, bind. rewrite Hconv. reflexivity. }
  split; [ exact E | ].
  rewrite E. unfold never_calls, calls. simpl snd.
  apply Forall_app. split.
  - eapply never_calls_eq; [ exact Hpre | ].
    apply log_prelude_never_calls; not_listed.
  - repeat (constructor; [ not_listed | ]). constructor.
Qed.

Lemma subclass_is_not_routed_directly (a0 : pyval) (base : pyclass) :
  In base [CPetriNet; CProcessTree] ->
  proper_subclass (type_of a0) base = true ->
  forall rest, routed_directly (a0 :: rest) = false.
Proof.
  intros Hin Hsub rest. unfold proper_subclass in Hsub.
  apply andb_true_iff in Hsub. destruct Hsub as [Hne Hsub].
  assert (T : type_is a0 CPetriNet = false /\ type_is a0 CProcessTree = false
              /\ type_is a0 CDict = false /\ type_is a0 CCounter = false).
  { unfold type_is. simpl in Hin.
    destruct Hin as [<- | [<- | []]];
      destruct (type_of a0); simpl in *; try discriminate; auto. }
  destruct T as (T1 & T2 & T3 & T4).
  destruct rest as [ | a1 [ | a2 [ | a3 rest ] ] ]; simpl;
    rewrite ?T1, ?T2, ?T3, ?T4; reflexivity.
Qed.

(** X9.  The router tests the exact class: an instance of a proper
    subclass of [PetriNet] or of [ProcessTree] is not handed to an
    engine as it is, it is passed with the other model arguments to
    [convert_to_petri_net], and the process-tree alignments are never
    used for it. *)
Theorem X9_alignment_router_converts_subclass_instances
    (log properties a0 : pyval) (rest : list pyval) (base : pyclass)
    (multi_processing : bool) (ak tk ck : string) (pre : list call) :
  log_prelude log ak tk ck = (Ok tt, pre) ->
  ext (get_properties_call log ak tk ck) = Ok properties ->
  In base [CPetriNet; CProcessTree] ->
  proper_subclass (type_of a0) base = true ->
  isinstance a0 base = true
  /\ (exists r t,
        conformance_diagnostics_alignments log (a0 :: rest) multi_processing ak tk ck
        = (r, pre ++ get_properties_call log ak tk ck
              :: Call convert_to_petri_net (a0 :: rest) [] :: t)
        /\ Forall (fun c => ~ In (fn c) PROCESS_TREE_ALIGNMENTS) t).
Proof.
  intros Hpre Hprops Hin Hsub.
  split.
  { unfold proper_subclass in Hsub. apply andb_true_iff in Hsub. apply Hsub. }
  pose proof (subclass_is_not_routed_directly a0 Hin Hsub rest) as Hshape.
  destruct (ext (Call convert_to_petri_net (a0 :: rest) [])) as [converted | e] eqn:Hconv.
  - destruct (unpack3 converted) as [[[net im] fm] | e] eqn:Hunpack.
    + destruct multi_processing; eexists; eexists;
        (split;
         [ apply (router_falls_back _ _ Hpre Hprops Hshape);
           invoke_step Hconv; lift_step Hunpack; unfold invoke; reflexivity
         | repeat (constructor; [ not_listed | ]); constructor ]).
    + exists (Raise e), []. split; [ | constructor ].
      apply (router_falls_back _ _ Hpre Hprops Hshape).
      unfold invoke, bind, lift. rewrite Hconv, Hunpack. reflexivity.
  - exists (Raise e), []. split; [ | constructor ].
    apply (router_falls_back _ _ Hpre Hprops Hshape).
    unfold invoke, bind. rewrite Hconv. reflexivity.
Qed.

End Alignment_router.

(** *** The entry points that take a log *)

Lemma dict_get_set_other (k k' : string) (v : pyval) (items : list (pyval * pyval)) :
  String.eqb k' k = false ->
  dict_get k' (dict_set k v items) = dict_get k' items.
Proof.
  intros Hne. unfold dict_get. f_equal.
  induction items as [ | kv items IH ]; simpl.
  - unfold key_is. simpl. rewrite String.eqb_sym, Hne. reflexivity.
  - destruct (key_is k kv) eqn:E; simpl.
    + assert (N : key_is k' kv = false).
      { unfold key_is in *. destruct (fst kv); try reflexivity.
        apply String.eqb_eq in E. subst s. rewrite String.eqb_sym. exact Hne. }
      assert (N' : key_is k' (fst kv, v) = false) by exact N.
      rewrite N, N'. reflexivity.
    + destruct (key_is k' kv); [ reflexivity | exact IH ].
Qed.

Lemma getitem_str_set (c : pyclass) (k k' : string) (v : pyval)
    (items : list (pyval * pyval)) :
  getitem_str (VMap c (dict_set k v items)) k = Ok v
  /\ (String.eqb k' k = false ->
      getitem_str (VMap c (dict_set k v items)) k'
      = getitem_str (VMap c items) k').
Proof.
  unfold getitem_str. split.
  - rewrite dict_get_set. reflexivity.
  - intros Hne. rewrite dict_get_set_other by exact Hne. reflexivity.
Qed.

Section Log_entry_points.
Context `{World}.

(** X10.  [fitness_alignments] and [precision_alignments] hand to their
    evaluator the properties that [get_properties] built, with the
    parallel flag stored under ["multiprocessing"]: that entry holds the
    flag (replacing an entry of that name), every other entry reads as
    before, and the evaluator is asked for its alignment-based
    variant. *)
Theorem X10_alignment_evaluations_carry_the_flag
    (log net im fm : pyval) (multi_processing : bool) (ak tk ck : string)
    (pre : list call) (cls : pyclass) (items : list (pyval * pyval)) :
  let parameters :=
    VMap cls (dict_set "multiprocessing" (VBool multi_processing) items) in
  let c_fit := Call replay_fitness_apply [log; net; im; fm]
                 [("variant", VEnum "replay_fitness.Variants.ALIGNMENT_BASED");
                  ("parameters", parameters)] in
  let c_prec := Call precision_evaluator_apply [log; net; im; fm]
                  [("variant", VEnum "precision_evaluator.Variants.ALIGN_ETCONFORMANCE");
                   ("parameters", parameters)] in
  log_prelude log ak tk ck = (Ok tt, pre) ->
  ext (get_properties_call log ak tk ck) = Ok (VMap cls items) ->
  fitness_alignments log net im fm multi_processing ak tk ck
  = (ext c_fit, pre ++ [get_properties_call log ak tk ck; c_fit])
  /\ precision_alignments log net im fm multi_processing ak tk ck
     = (ext c_prec, pre ++ [get_properties_call log ak tk ck; c_prec])
  /\ getitem_str parameters "multiprocessing" = Ok (VBool multi_processing)
  /\ (forall k, String.eqb k "multiprocessing" = false ->
                getitem_str parameters k = getitem_str (VMap cls items) k).
Proof.
  intros parameters c_fit c_prec Hpre Hprops.
  split; [ | split; [ | split ] ].
  - unfold fitness_alignments. bind_step Hpre. invoke_step Hprops.
    eapply step_lift; [ reflexivity | cbv beta ]. reflexivity. reflexivity.
  - unfold precision_alignments. bind_step Hpre. invoke_step Hprops.
    eapply step_lift; [ reflexivity | cbv beta ]. reflexivity. reflexivity.
  - apply (getitem_str_set cls "multiprocessing" "" _ items).
  - intros k Hk. now apply getitem_str_set.
Qed.

(** X11.  The tolerance that [conformance_temporal_profile] stores
    replaces a ["zeta"] entry that the properties may already have and
    leaves every other property as [get_properties] built it. *)
Theorem X11_zeta_overrides_and_preserves
    (log profile zeta : pyval) (ak tk ck : string)
    (pre : list call) (cls : pyclass) (items : list (pyval * pyval)) :
  let parameters := VMap cls (dict_set "zeta" zeta items) in
  let c := Call temporal_profile_conformance_apply [log; profile]
             [("parameters", parameters)] in
  log_prelude log ak tk ck = (Ok tt, pre) ->
  ext (get_properties_call log ak tk ck) = Ok (VMap cls items) ->
  conformance_temporal_profile log profile zeta ak tk ck
  = (ext c, pre ++ [get_properties_call log ak tk ck; c])
  /\ getitem_str parameters "zeta" = Ok zeta
  /\ (forall k, String.eqb k "zeta" = false ->
                getitem_str parameters k = getitem_str (VMap cls items) k).
Proof.
  intros parameters c Hpre Hprops.
  split; [ | split ].
  - unfold conformance_temporal_profile. bind_step Hpre. invoke_step Hprops.
    eapply step_lift; [ reflexivity | cbv beta ]. reflexivity. reflexivity.
  - apply (getitem_str_set cls "zeta" "" _ items).
  - intros k Hk. now apply getitem_str_set.
Qed.

Lemma prelude_stops_every_entry_point log ak tk ck e t :
  log_prelude log ak tk ck = (Raise e, t) ->
  every_entry_point_stops_after log ak tk ck e t.
Proof.
  intros E. unfold every_entry_point_stops_after.
  repeat match goal with |- _ /\ _ => split end; intros;
    unfold conformance_diagnostics_token_based_replay,
      conformance_diagnostics_alignments, fitness_token_based_replay,
      fitness_alignments, precision_token_based_replay, precision_alignments,
      conformance_temporal_profile, conformance_log_skeleton;
    rewrite E; reflexivity.
Qed.

(** X12.  For a log of an accepted class that the dataframe test
    recognises, a column check that raises stops each of the eight entry
    points with that exception: the calls made are the deprecation
    warning, the dataframe test and the column check with the three
    configured keys, and neither [get_properties] nor any engine is
    reached. *)
Theorem X12_missing_column_stops_every_entry_point
    (log w is_df : pyval) (ak tk ck : string) (e : pyexc) :
  let c_cols := Call check_pandas_dataframe_columns [log] (key_kwargs ak tk ck) in
  type_in log LOG_TYPES = true ->
  ext (Call event_log_deprecation_warning [log] []) = Ok w ->
  ext (Call check_is_pandas_dataframe [log] []) = Ok is_df ->
  truthy is_df = true ->
  ext c_cols = Raise e ->
  every_entry_point_stops_after log ak tk ck e
    [Call event_log_deprecation_warning [log] [];
     Call check_is_pandas_dataframe [log] []; c_cols].
Proof.
  intros c_cols Hty Hwarn Hdf Htruthy Hcols.
  apply prelude_stops_every_entry_point.
  unfold log_prelude. rewrite Hty. simpl negb. cbv iota.
  rewrite bind_ret.
  invoke_step Hwarn. invoke_step Hdf. rewrite Htruthy.
  unfold invoke, bind. fold c_cols. rewrite Hcols. reflexivity.
Qed.

End Log_entry_points.

(** *** The cascades: failures, results and engines never used *)

Lemma step_raise {A B} (m : M A) (k : A -> M B) e t :
  m = (Raise e, t) -> bind m k = (Raise e, t).
Proof. intros ->. reflexivity. Qed.

Section Cascade_more.
Context `{World}.

Lemma never_calls_try_except {A} F (m : M A) (h : pyexc -> M A) :
  never_calls F m -> (forall e, never_calls F (h e)) ->
  never_calls F (try_except m h).
Proof.
  unfold never_calls, calls, try_except. intros Hm Hh.
  destruct m as [[a | e] t]; simpl in *; [ exact Hm | ].
  specialize (Hh e). destruct (h e) as [r t']. simpl in *.
  apply Forall_app. split; assumption.
Qed.

Lemma process_tree_check_never_calls F trace tree :
  (forall f, In f F -> In f ALIGNMENT_ENGINES) ->
  (forall log,
      never_calls F
        (conformance_diagnostics_alignments log [tree] false
           DEFAULT_ACTIVITY_KEY DEFAULT_TIMESTAMP_KEY DEFAULT_CASE_ID_KEY)) ->
  never_calls F (__check_is_fit_process_tree trace tree).
Proof.
  intros HF Hal.
  assert (N : forall f, ~ In f ALIGNMENT_ENGINES -> ~ In f F)
    by (intros f Nf I; apply Nf; auto).
  unfold __check_is_fit_process_tree.
  apply never_calls_bind; [ apply never_calls_invoke; apply N; not_listed | intros ].
  cbv zeta.
  apply never_calls_bind; [ apply never_calls_invoke; apply N; not_listed | intros ].
  apply never_calls_bind; [ apply never_calls_invoke; apply N; not_listed | intros ].
  apply never_calls_bind;
    [ apply footprints_never_calls; intros f I; apply HF in I; revert I; not_listed
    | intros ].
  apply never_calls_bind; [ apply never_calls_lift | intros ].
  apply never_calls_bind; [ apply never_calls_lift | intros ].
  destruct (negb _); [ apply never_calls_ret | ].
  apply never_calls_bind; [ apply never_calls_invoke; apply N; not_listed | intros ].
  apply never_calls_bind; [ apply never_calls_lift | intros [[net im] fm] ].
  apply never_calls_bind;
    [ apply token_based_replay_never_calls; intros f I; left; auto | intros ].
  apply never_calls_bind; [ apply never_calls_lift | intros ].
  apply never_calls_bind; [ apply never_calls_lift | intros ].
  destruct (truthy _); [ apply never_calls_ret | ].
  apply never_calls_bind; [ apply Hal | intros ].
  apply never_calls_bind; [ apply never_calls_lift | intros ].
  apply never_calls_bind; [ apply never_calls_lift | intros ].
  apply py_eq_float_never_calls. apply N. not_listed.
Qed.

Lemma petri_net_check_never_calls F trace net im fm activity_key :
  (forall f, In f F -> In f ALIGNMENT_ENGINES) ->
  (forall log,
      never_calls F
        (conformance_diagnostics_alignments log [net; im; fm] false
           DEFAULT_ACTIVITY_KEY DEFAULT_TIMESTAMP_KEY DEFAULT_CASE_ID_KEY)) ->
  never_calls F (__check_is_fit_petri_net trace net im fm activity_key).
Proof.
  intros HF Hal.
  assert (N : forall f, ~ In f ALIGNMENT_ENGINES -> ~ In f F)
    by (intros f Nf I; apply Nf; auto).
  unfold __check_is_fit_petri_net.
  apply never_calls_bind; [ apply never_calls_invoke; apply N; not_listed | intros ].
  apply never_calls_bind; [ apply never_calls_lift | intros ].
  apply never_calls_bind; [ apply never_calls_lift | intros ].
  apply never_calls_bind;
    [ apply set_difference_never_calls; apply N; not_listed | intros ].
  cbv zeta. destruct (truthy _); [ apply never_calls_ret | ].
  apply never_calls_bind;
    [ apply token_based_replay_never_calls; intros f I; left; auto | intros ].
  apply never_calls_bind; [ apply never_calls_lift | intros ].
  apply never_calls_bind; [ apply never_calls_lift | intros ].
  destruct (truthy _); [ apply never_calls_ret | ].
  apply never_calls_bind; [ apply Hal | intros ].
  apply never_calls_bind; [ apply never_calls_lift | intros ].
  apply never_calls_bind; [ apply never_calls_lift | intros ].
  apply py_eq_float_never_calls. apply N. not_listed.
Qed.

Lemma sequential_alignments_never_parallel log args ak tk ck :
  never_calls PARALLEL_ENGINES
    (conformance_diagnostics_alignments log args false ak tk ck).
Proof.
  unfold conformance_diagnostics_alignments.
  apply never_calls_bind; [ apply log_prelude_never_calls; not_listed | intros ].
  cbv zeta. repeat never_calls_step.
Qed.

Lemma inexact_tree_never_aligned_as_tree log tree mp ak tk ck :
  type_is tree CProcessTree = false ->
  never_calls PROCESS_TREE_ALIGNMENTS
    (conformance_diagnostics_alignments log [tree] mp ak tk ck).
Proof.
  intros Ht. unfold conformance_diagnostics_alignments.
  apply never_calls_bind; [ apply log_prelude_never_calls; not_listed | intros ].
  cbv zeta. rewrite Ht. repeat never_calls_step.
Qed.

End Cascade_more.

Section Cascade_extras.
Context `{World}.

(** X13.  In the process-tree cascade a replay that raises is not taken
    as an inconclusive verdict: the check raises the same exception, and
    no alignment engine is consulted. *)
Theorem X13_tree_cascade_propagates_replay_failure
    (trace tree w fp_fit net im fm : pyval) (t_fp t_tbr : list call) (e : pyexc) :
  let log := single_trace_log trace in
  let c_warn := Call event_log_deprecation_warning [trace] [] in
  let c_conv := Call convert_to_petri_net [tree] [] in
  ext c_warn = Ok w ->
  footprints_report trace tree fp_fit t_fp ->
  truthy fp_fit = true ->
  tree_as_net tree net im fm ->
  conformance_diagnostics_token_based_replay log net im fm
    DEFAULT_ACTIVITY_KEY DEFAULT_TIMESTAMP_KEY DEFAULT_CASE_ID_KEY
  = (Raise e, t_tbr) ->
  __check_is_fit_process_tree trace tree
  = (Raise e, c_warn :: t_fp ++ c_conv :: t_tbr)
  /\ never_calls ALIGNMENT_ENGINES (__check_is_fit_process_tree trace tree).
Proof.
  intros log c_warn c_conv Hwarn
    (fp_tree & fp_log & fp_conf & fp_conf_res & t_conf
     & Htree & Hlog & Hconf & Hres & Hfit & ->)
    Htrue (converted & Hconv & Hunpack) Htbr.
  assert (E : __check_is_fit_process_tree trace tree
              = (Raise e,
                 c_warn :: (Call discover_footprints [tree] []
                 :: Call discover_footprints [single_trace_log trace] []
                 :: t_conf) ++ c_conv :: t_tbr)).
  { unfold __check_is_fit_process_tree.
    invoke_step Hwarn. invoke_step Htree. invoke_step Hlog.
    bind_step Hconf. lift_step Hres. lift_step Hfit.
    rewrite Htrue. simpl negb. cbv iota.
    invoke_step Hconv. lift_step Hunpack.
    apply step_raise. exact Htbr. traces. }
  split; [ exact E | ].
  rewrite E. unfold never_calls, calls. simpl snd.
  repeat (constructor; [ not_listed | ]).
  apply Forall_app. split.
  - eapply never_calls_eq; [ exact Hconf | ].
    apply footprints_never_calls. intros f I. revert I. not_listed.
  - constructor; [ not_listed | ].
    eapply never_calls_eq; [ exact Htbr | ].
    apply token_based_replay_never_calls. intros f I. left. exact I.
Qed.

(** X14.  The same holds on the Petri-net path: when every activity of
    the trace is a label of the net and replay raises, the check raises
    that exception without consulting an alignment engine. *)
Theorem X14_net_cascade_propagates_replay_failure
    (trace net im fm w : pyval) (activity_key : string)
    (labels acts : list pyval) (t_tbr : list call) (e : pyexc) :
  let log := single_trace_log trace in
  let c_warn := Call event_log_deprecation_warning [trace] [] in
  ext c_warn = Ok w ->
  model_activities net = Ok labels ->
  trace_activities trace activity_key = Ok acts ->
  (forall a, In a acts -> existsb (hash_eqb a) labels = true) ->
  conformance_diagnostics_token_based_replay log net im fm
    DEFAULT_ACTIVITY_KEY DEFAULT_TIMESTAMP_KEY DEFAULT_CASE_ID_KEY
  = (Raise e, t_tbr) ->
  __check_is_fit_petri_net trace net im fm activity_key
  = (Raise e, c_warn :: t_tbr)
  /\ never_calls ALIGNMENT_ENGINES
       (__check_is_fit_petri_net trace net im fm activity_key).
Proof.
  intros log c_warn Hwarn Hlabels Hacts Hall Htbr.
  assert (F : forallb (fun a => existsb (hash_eqb a) labels) acts = true)
    by (apply forallb_forall; exact Hall).
  assert (D : set_difference acts labels
              = (Ok (filter (fun a => negb (existsb (hash_eqb a) labels)) acts), []))
    by (apply set_difference_decided; intros a Ha; left; apply Hall; exact Ha).
  assert (E : __check_is_fit_petri_net trace net im fm activity_key
              = (Raise e, c_warn :: t_tbr)).
  { unfold __check_is_fit_petri_net.
    invoke_step Hwarn. lift_step Hlabels. lift_step Hacts.
    bind_step D.
    - rewrite truthy_missing, F. simpl negb. cbv iota.
      apply step_raise. exact Htbr.
    - reflexivity. }
  split; [ exact E | ].
  rewrite E. unfold never_calls, calls. simpl snd.
  constructor; [ not_listed | ].
  eapply never_calls_eq; [ exact Htbr | ].
  apply token_based_replay_never_calls. intros f I. left. exact I.
Qed.

(** X16.  The single-trace checks are sequential: neither cascade, nor
    [check_is_fitting], ever calls the multiprocessing variant of an
    alignment engine. *)
Theorem X16_checks_never_use_parallel_engines :
  (forall trace tree,
      never_calls PARALLEL_ENGINES (__check_is_fit_process_tree trace tree))
  /\ (forall trace net im fm activity_key,
      never_calls PARALLEL_ENGINES
        (__check_is_fit_petri_net trace net im fm activity_key))
  /\ (forall args activity_key,
      never_calls PARALLEL_ENGINES (check_is_fitting args activity_key)).
Proof.
  assert (Sub : forall f, In f PARALLEL_ENGINES -> In f ALIGNMENT_ENGINES)
    by (intros f; simpl; intuition).
  assert (T : forall trace tree,
             never_calls PARALLEL_ENGINES (__check_is_fit_process_tree trace tree)).
  { intros. apply process_tree_check_never_calls; [ exact Sub | ].
    intros. apply sequential_alignments_never_parallel. }
  assert (N : forall trace net im fm activity_key,
             never_calls PARALLEL_ENGINES
               (__check_is_fit_petri_net trace net im fm activity_key)).
  { intros. apply petri_net_check_never_calls; [ exact Sub | ].
    intros. apply sequential_alignments_never_parallel. }
  split; [ exact T | ]. split; [ exact N | ].
  intros args activity_key. unfold check_is_fitting.
  destruct args as [ | trace model ]; [ apply never_calls_raise | ].
  apply never_calls_bind;
    [ apply never_calls_try_except;
      [ | intros ]; apply never_calls_invoke; not_listed
    | intros ].
  apply never_calls_bind.
  { destruct (negb _); [ | apply never_calls_ret ].
    apply never_calls_bind; [ apply never_calls_invoke; not_listed | intros ].
    apply never_calls_bind; [ apply never_calls_lift | intros ].
    apply never_calls_ret. }
  intros.
  destruct (isinstance a CProcessTree); [ apply T | ].
  destruct (isinstance a CTuple); [ | apply never_calls_ret ].
  apply never_calls_bind; [ apply never_calls_lift | intros ].
  destruct (isinstance a1 CPetriNet); [ | apply never_calls_ret ].
  do 3 (apply never_calls_bind; [ apply never_calls_lift | intros ]).
  apply N.
Qed.

(** X17.  A tree whose class is not exactly [ProcessTree] (an instance
    of a subclass, which [check_is_fitting] accepts) is never aligned by
    the process-tree alignments: the cascade never calls them for it. *)
Theorem X17_inexact_tree_is_not_aligned_as_a_tree (trace tree : pyval) :
  type_is tree CProcessTree = false ->
  never_calls PROCESS_TREE_ALIGNMENTS (__check_is_fit_process_tree trace tree).
Proof.
  intros Ht. apply process_tree_check_never_calls.
  - intros f; simpl; intuition.
  - intros log. now apply inexact_tree_never_aligned_as_tree.
Qed.

(** X18.  [check_is_fitting] gives no verdict when the coerced model is
    neither a process tree nor a tuple starting with a Petri net: for a
    structured trace it returns [None] right after the conversion. *)
Theorem X18_check_is_fitting_returns_none
    (trace : pyval) (model : list pyval) (activity_key : string)
    (m : pyval) (t_conv : list call) :
  isinstance trace CTrace = true ->
  coerced model m t_conv ->
  isinstance m CProcessTree = false ->
  (isinstance m CTuple = false
   \/ exists m0, getitem_nat m 0 = Ok m0 /\ isinstance m0 CPetriNet = false) ->
  check_is_fitting (trace :: model) activity_key = (Ok VNone, t_conv).
Proof.
  intros Htrace Hco Hntree Hother. unfold check_is_fitting.
  bind_step (coerced_run Hco).
  rewrite Htrace. simpl negb. cbv iota.
  eapply step_bind; [ reflexivity | cbv beta | ].
  - rewrite Hntree.
    destruct Hother as [Hnt | (m0 & H0 & Hnn)].
    + rewrite Hnt. reflexivity.
    + destruct (isinstance m CTuple); [ | reflexivity ].
      lift_step H0. rewrite Hnn. reflexivity.
  - reflexivity.
  - traces.
Qed.

(** X19.  For a structured trace and a model coerced to a tuple of a
    Petri net and two markings, [check_is_fitting] is the Petri-net
    cascade on that very trace with the activity key of the caller; the
    trace is not rebuilt and the variant helper is not called. *)
Theorem X19_structured_trace_on_the_net_path
    (trace : pyval) (model : list pyval) (activity_key : string)
    (m net im fm : pyval) (t_conv : list call) :
  isinstance trace CTrace = true ->
  coerced model m t_conv ->
  isinstance m CProcessTree = false ->
  isinstance m CTuple = true ->
  getitem_nat m 0 = Ok net ->
  isinstance net CPetriNet = true ->
  getitem_nat m 1 = Ok im ->
  getitem_nat m 2 = Ok fm ->
  check_is_fitting (trace :: model) activity_key
  = (result (__check_is_fit_petri_net trace net im fm activity_key),
     t_conv ++ calls (__check_is_fit_petri_net trace net im fm activity_key)).
Proof.
  intros Htrace Hco Hntree Htuple H0 Hnet H1 H2. unfold check_is_fitting.
  bind_step (coerced_run Hco).
  rewrite Htrace. simpl negb. cbv iota.
  eapply step_bind; [ reflexivity | cbv beta | ].
  - rewrite Hntree, Htuple.
    lift_step H0. rewrite Hnet.
    lift_step H0. lift_step H1. lift_step H2.
    symmetry. apply pair_result_calls.
  - reflexivity.
  - traces.
Qed.

End Cascade_extras.

(** *** Activities of a trace and labels of a net *)

Lemma collect_activities_app (activity_key : string) (before after : list pyval)
    (acts : list pyval) :
  collect_activities activity_key before = Ok acts ->
  collect_activities activity_key (before ++ after)
  = match collect_activities activity_key after with
    | Ok rest => Ok (acts ++ rest)
    | Raise e => Raise e
    end.
Proof.
  revert acts. induction before as [ | x before IH ]; intros acts E; simpl in *.
  - injection E as <-. destruct (collect_activities activity_key after); reflexivity.
  - destruct (getitem_str x activity_key) as [a | e]; [ | discriminate E ].
    destruct (collect_activities activity_key before) as [acts' | e];
      [ | discriminate E ].
    injection E as <-. rewrite (IH acts' eq_refl).
    destruct (collect_activities activity_key after); reflexivity.
Qed.

Section Activities.
Context `{World}.

(** X20.  On the Petri-net path an event without the activity attribute
    makes the check raise [KeyError] for the activity key: when the
    events before it all carry the key, the first event that is an
    [Event] or a [dict] without it stops the check right after the
    deprecation warning, before replay.  (A [Counter] in that place
    would count the missing key as 0 and raise nothing.) *)
Theorem X20_event_without_activity_raises_KeyError
    (trace net im fm w : pyval) (activity_key : string)
    (labels before_acts : list pyval)
    (before after : list pyval) (cls : pyclass) (items : list (pyval * pyval)) :
  let c_warn := Call event_log_deprecation_warning [trace] [] in
  cls = CEvent \/ cls = CDict ->
  ext c_warn = Ok w ->
  model_activities net = Ok labels ->
  py_iter trace = Ok (before ++ VMap cls items :: after) ->
  collect_activities activity_key before = Ok before_acts ->
  dict_get activity_key items = None ->
  __check_is_fit_petri_net trace net im fm activity_key
  = (Raise (Exc EKeyError [VStr activity_key]), [c_warn]).
Proof.
  intros c_warn Hcls Hwarn Hlabels Hiter Hbefore Hmiss.
  assert (T : trace_activities trace activity_key
              = Raise (Exc EKeyError [VStr activity_key])).
  { unfold trace_activities. rewrite Hiter.
    erewrite collect_activities_app by exact Hbefore. simpl.
    rewrite Hmiss. destruct Hcls as [-> | ->]; reflexivity. }
  unfold __check_is_fit_petri_net.
  invoke_step Hwarn. lift_step Hlabels.
  unfold lift. rewrite T. reflexivity.
Qed.

Lemma collect_labels_of_transitions (ts labels : list pyval) :
  Forall2 (fun t l => getattr t "label" = Ok l) ts labels ->
  forallb hashable labels = true ->
  collect_labels ts
  = Ok (filter (fun l => match l with VNone => false | _ => true end) labels).
Proof.
  induction 1 as [ | t l ts labels Ht _ IH ]; intros Hh; simpl in *;
    [ reflexivity | ].
  apply andb_true_iff in Hh. destruct Hh as [Hl Hrest].
  rewrite Ht. specialize (IH Hrest).
  destruct l; try (rewrite Hl, IH; reflexivity).
  exact IH.
Qed.

(** X21.  Silent transitions do not count in the label check: the
    activities of the model are the labels of the transitions, in order,
    with the [None] labels left out. *)
Theorem X21_silent_transitions_are_ignored
    (net transitions : pyval) (ts labels : list pyval) :
  getattr net "transitions" = Ok transitions ->
  py_iter transitions = Ok ts ->
  Forall2 (fun t l => getattr t "label" = Ok l) ts labels ->
  forallb hashable labels = true ->
  model_activities net
  = Ok (filter (fun l => match l with VNone => false | _ => true end) labels)
  /\ ~ In VNone (filter (fun l => match l with VNone => false | _ => true end) labels).
Proof.
  intros Hn Hi Hl Hh. split.
  - unfold model_activities. rewrite Hn, Hi.
    now apply collect_labels_of_transitions.
  - intros I. apply filter_In in I. destruct I as [_ I]. discriminate I.
Qed.

Lemma collect_activities_of_promoted (activity_key : string) (acts : list pyval) :
  collect_activities activity_key
    (map (fun act => VMap CEvent [(VStr activity_key, act)]) acts)
  = Ok acts.
Proof.
  induction acts as [ | a acts IH ]; simpl; [ reflexivity | ].
  unfold getitem_str, dict_get. simpl. unfold key_is. simpl.
  rewrite String.eqb_refl. simpl. rewrite IH. reflexivity.
Qed.

Lemma make_set_of_hashable (elements : list pyval) :
  forallb hashable elements = true -> make_set elements = Ok elements.
Proof.
  intros Hh. unfold make_set.
  replace (find (fun v => negb (hashable v)) elements) with (@None pyval);
    [ reflexivity | ].
  symmetry. induction elements as [ | x l IH ]; simpl in *; [ reflexivity | ].
  apply andb_true_iff in Hh. destruct Hh as [Hx Hl].
  rewrite Hx. simpl. exact (IH Hl).
Qed.

Lemma make_set_first_unhashable (before after : list pyval) (bad : pyval) :
  forallb hashable before = true ->
  hashable bad = false ->
  make_set (before ++ bad :: after) = Raise (unhashable_error bad).
Proof.
  intros Hb Hbad. unfold make_set.
  replace (find (fun v => negb (hashable v)) (before ++ bad :: after))
    with (Some bad); [ reflexivity | ].
  symmetry. induction before as [ | x l IH ]; simpl in *.
  - rewrite Hbad. reflexivity.
  - apply andb_true_iff in Hb. destruct Hb as [Hx Hl].
    rewrite Hx. simpl. exact (IH Hl).
Qed.

(** X22.  Promotion and extraction are inverse to each other: the
    activities that the Petri-net path reads from a trace promoted under
    an activity key, with that same key, are the activities of the
    variant in their order, provided they are hashable.  With an
    unhashable activity the extraction raises the [TypeError] of the
    first such activity: [unhashable type: 'list'] when it is a list,
    [unhashable type: 'dict'] when it is a dictionary. *)
Theorem X22_promoted_trace_gives_back_the_activities
    (activity_key : string) (acts : list pyval) :
  (forallb hashable acts = true ->
   trace_activities (promote_variant activity_key acts) activity_key = Ok acts)
  /\ (forall before after items,
        acts = before ++ VSeq CList items :: after ->
        forallb hashable before = true ->
        trace_activities (promote_variant activity_key acts) activity_key
        = Raise (Exc ETypeError [VStr "unhashable type: 'list'"]))
  /\ (forall before after items,
        acts = before ++ VMap CDict items :: after ->
        forallb hashable before = true ->
        trace_activities (promote_variant activity_key acts) activity_key
        = Raise (Exc ETypeError [VStr "unhashable type: 'dict'"])).
Proof.
  assert (E : trace_activities (promote_variant activity_key acts) activity_key
              = make_set acts).
  { rewrite promote_variant_map. unfold trace_activities, py_iter.
    rewrite collect_activities_of_promoted. reflexivity. }
  rewrite E. split; [ | split ].
  - apply make_set_of_hashable.
  - intros before after items -> Hb.
    rewrite make_set_first_unhashable by (exact Hb || reflexivity). reflexivity.
  - intros before after items -> Hb.
    rewrite make_set_first_unhashable by (exact Hb || reflexivity). reflexivity.
Qed.

End Activities.

(** *** The LP solver wrapper *)

Lemma round_each_integers (zs : list Z) :
  scipy_solver.round_each (map (fun z => VFloat (Fin (inject_Z z))) zs)
  = Ok (map VInt zs).
Proof.
  induction zs as [ | z zs IH ]; simpl; [ reflexivity | ].
  rewrite round_half_even_of_integer, IH. reflexivity.
Qed.

(** X23.  An integral solution is returned exactly: when the objective
    value and the coordinates of the point are floats with integer
    values, the extractors return these integers. *)
Theorem X23_integral_solutions_are_exact
    (sol parameters x : pyval) (z : Z) (zs : list Z) :
  getattr sol "fun" = Ok (VFloat (Fin (inject_Z z))) ->
  getattr sol "x" = Ok x ->
  py_iter x = Ok (map (fun z => VFloat (Fin (inject_Z z))) zs) ->
  scipy_solver.get_prim_obj_from_sol sol parameters = Ok (VInt z)
  /\ scipy_solver.get_points_from_sol sol parameters = Ok (VSeq CList (map VInt zs)).
Proof.
  intros Hf Hx Hi. split.
  - unfold scipy_solver.get_prim_obj_from_sol. rewrite Hf. simpl.
    now rewrite round_half_even_of_integer.
  - unfold scipy_solver.get_points_from_sol. rewrite Hx, Hi.
    rewrite round_each_integers. reflexivity.
Qed.

(** *** The further properties on concrete inputs *)

Lemma X1_footprints_pass_through_witness :
  @__convert_to_fp Examples.quiet_world
    (VSeq CTuple [VSeq CTuple [VSeq CList [VMap CDict []]]])
  = (Ok (VSeq CList [VMap CDict []]), []).
Proof.
  apply (@X1_footprints_pass_through Examples.quiet_world 2
           (VSeq CList [VMap CDict []]) eq_refl).
Defined.

Lemma X3_precomputed_footprints_witness :
  map fn (calls (@conformance_diagnostics_footprints Examples.quiet_world
                   [VMap CDict []; VMap CDict []]))
  = [footprints_conformance_apply]
  /\ map kwargs (calls (@conformance_diagnostics_footprints Examples.quiet_world
                          [VMap CDict []; VMap CDict []]))
     = [[("variant", VEnum "footprints_conformance.Variants.LOG_EXTENSIVE")]].
Proof.
  rewrite (@X3_precomputed_footprints_are_compared_directly Examples.quiet_world
             (VMap CDict []) (VMap CDict []) eq_refl eq_refl).
  split; reflexivity.
Defined.

Lemma X4_model_arguments_witness :
  let W := Examples.cascade_world true true (Fin 1%Q) in
  map (fun c => (fn c, args c))
    (calls (@conformance_diagnostics_footprints W
              [VSeq CList [VMap CDict []];
               Examples.a_net; Examples.an_im; Examples.a_fm]))
  = [(discover_footprints, [Examples.a_net; Examples.an_im; Examples.a_fm]);
     (footprints_conformance_apply, [VSeq CList [VMap CDict []]; VMap CDict []])].
Proof.
  intros W.
  rewrite (@X4_model_arguments_are_discovered_together W
             (VSeq CList [VMap CDict []]) Examples.a_net Examples.an_im
             (VMap CDict []) [Examples.a_fm] eq_refl eq_refl).
  reflexivity.
Defined.

Lemma X5_fitness_footprints_witness :
  let W := Examples.cascade_world true true (Fin 1%Q) in
  map fn (calls (@fitness_footprints W [Examples.an_event_log; Examples.a_tree]))
  = [discover_footprints; discover_footprints; footprints_conformance_apply;
     discover_footprints; discover_footprints; evaluation_fp_fitness].
Proof.
  intros W.
  rewrite (@X5_fitness_footprints_discovers_twice W
             Examples.an_event_log Examples.a_tree
             (VSeq CList [VMap CDict []]) (VMap CDict [])
             (VSeq CList [VMap CDict [(VStr "is_footprints_fit", VBool true)]])
             eq_refl eq_refl eq_refl eq_refl eq_refl).
  reflexivity.
Defined.

Lemma X6_alignment_router_sequential_witness :
  map fn (calls (@conformance_diagnostics_alignments Examples.quiet_world
                   Examples.an_event_log
                   [Examples.a_net; Examples.an_im; Examples.a_fm] false
                   DEFAULT_ACTIVITY_KEY DEFAULT_TIMESTAMP_KEY DEFAULT_CASE_ID_KEY))
  = [event_log_deprecation_warning; check_is_pandas_dataframe;
     get_properties; alignments_apply].
Proof.
  destruct (@X6_alignment_router_sequential Examples.quiet_world
              Examples.an_event_log VNone
              DEFAULT_ACTIVITY_KEY DEFAULT_TIMESTAMP_KEY DEFAULT_CASE_ID_KEY
              _ eq_refl eq_refl) as [Hnet _].
  rewrite (Hnet Examples.a_net Examples.an_im Examples.a_fm eq_refl).
  reflexivity.
Defined.

Lemma X7_alignment_router_converts_witness :
  let W := Examples.cascade_world true true (Fin 1%Q) in
  map (fun c => (fn c, args c))
    (calls (@conformance_diagnostics_alignments W Examples.an_event_log
              [Examples.a_bpmn] true
              DEFAULT_ACTIVITY_KEY DEFAULT_TIMESTAMP_KEY DEFAULT_CASE_ID_KEY))
  = [(event_log_deprecation_warning, [Examples.an_event_log]);
     (check_is_pandas_dataframe, [Examples.an_event_log]);
     (get_properties, [Examples.an_event_log]);
     (convert_to_petri_net, [Examples.a_bpmn]);
     (alignments_apply_multiprocessing,
      [Examples.an_event_log; Examples.a_net; Examples.an_im; Examples.a_fm])].
Proof.
  intros W.
  rewrite (@X7_alignment_router_converts_other_models W
             Examples.an_event_log _ _ Examples.a_net Examples.an_im Examples.a_fm
             [Examples.a_bpmn]
             DEFAULT_ACTIVITY_KEY DEFAULT_TIMESTAMP_KEY DEFAULT_CASE_ID_KEY
             _ eq_refl eq_refl eq_refl eq_refl eq_refl true).
  reflexivity.
Defined.

Lemma X8_alignment_router_unsupported_witness :
  result (@conformance_diagnostics_alignments Examples.unsupported_world
            Examples.an_event_log [Examples.a_bpmn] false
            DEFAULT_ACTIVITY_KEY DEFAULT_TIMESTAMP_KEY DEFAULT_CASE_ID_KEY)
  = Raise (Exc EException
             [VStr "unsupported conversion of the provided object to Petri net"]).
Proof.
  destruct (@X8_alignment_router_unsupported_model Examples.unsupported_world
              Examples.an_event_log VNone [Examples.a_bpmn] false
              DEFAULT_ACTIVITY_KEY DEFAULT_TIMESTAMP_KEY DEFAULT_CASE_ID_KEY
              _ _ eq_refl eq_refl eq_refl eq_refl) as [E _].
  rewrite E. reflexivity.
Defined.

Lemma X9_alignment_router_subclass_witness :
  let W := Examples.cascade_world true true (Fin 1%Q) in
  isinstance MoreExamples.my_net CPetriNet = true
  /\ In (Call convert_to_petri_net
           [MoreExamples.my_net; Examples.an_im; Examples.a_fm] [])
       (calls (@conformance_diagnostics_alignments W Examples.an_event_log
                 [MoreExamples.my_net; Examples.an_im; Examples.a_fm] false
                 DEFAULT_ACTIVITY_KEY DEFAULT_TIMESTAMP_KEY DEFAULT_CASE_ID_KEY)).
Proof.
  intros W.
  destruct (@X9_alignment_router_converts_subclass_instances W
              Examples.an_event_log _ MoreExamples.my_net
              [Examples.an_im; Examples.a_fm] CPetriNet false
              DEFAULT_ACTIVITY_KEY DEFAULT_TIMESTAMP_KEY DEFAULT_CASE_ID_KEY
              _ eq_refl eq_refl (or_introl eq_refl) eq_refl)
    as [Hi (r & t & E & _)].
  split; [ exact Hi | ].
  rewrite E. unfold calls. simpl snd. simpl. auto.
Defined.

Lemma X10_alignment_evaluations_witness :
  let W := Examples.cascade_world true true (Fin 1%Q) in
  map (fun c => (fn c, dict_get "parameters"
                         (map (fun kv => (VStr (fst kv), snd kv)) (kwargs c))))
    (calls (@fitness_alignments W Examples.an_event_log
              Examples.a_net Examples.an_im Examples.a_fm true
              DEFAULT_ACTIVITY_KEY DEFAULT_TIMESTAMP_KEY DEFAULT_CASE_ID_KEY))
  = [(event_log_deprecation_warning, None);
     (check_is_pandas_dataframe, None);
     (get_properties, None);
     (replay_fitness_apply,
      Some (VMap CDict [(VStr "activity_key", VStr "concept:name");
                        (VStr "timestamp_key", VStr "time:timestamp");
                        (VStr "case_id_key", VStr "case:concept:name");
                        (VStr "multiprocessing", VBool true)]))].
Proof.
  intros W.
  destruct (@X10_alignment_evaluations_carry_the_flag W Examples.an_event_log
              Examples.a_net Examples.an_im Examples.a_fm true
              DEFAULT_ACTIVITY_KEY DEFAULT_TIMESTAMP_KEY DEFAULT_CASE_ID_KEY
              _ CDict _ eq_refl eq_refl) as [E _].
  rewrite E. reflexivity.
Defined.

Lemma X11_zeta_overrides_witness :
  let W : World := fun c =>
    match fn c with
    | get_properties => Ok (VMap CDict [(VStr "zeta", VInt 6); (VStr "k", VInt 0)])
    | _ => Ok VNone
    end in
  map (fun c => dict_get "parameters"
                  (map (fun kv => (VStr (fst kv), snd kv)) (kwargs c)))
    (calls (@conformance_temporal_profile W Examples.an_event_log VNone
              DEFAULT_ZETA
              DEFAULT_ACTIVITY_KEY DEFAULT_TIMESTAMP_KEY DEFAULT_CASE_ID_KEY))
  = [None; None; None;
     Some (VMap CDict [(VStr "zeta", DEFAULT_ZETA); (VStr "k", VInt 0)])].
Proof.
  intros W.
  destruct (@X11_zeta_overrides_and_preserves W Examples.an_event_log VNone
              DEFAULT_ZETA
              DEFAULT_ACTIVITY_KEY DEFAULT_TIMESTAMP_KEY DEFAULT_CASE_ID_KEY
              _ CDict _ eq_refl eq_refl) as [E _].
  rewrite E. reflexivity.
Defined.

Lemma X12_missing_column_witness :
  result (@fitness_token_based_replay MoreExamples.schema_world
            MoreExamples.a_dataframe
            Examples.a_net Examples.an_im Examples.a_fm
            DEFAULT_ACTIVITY_KEY DEFAULT_TIMESTAMP_KEY DEFAULT_CASE_ID_KEY)
  = Raise MoreExamples.missing_column.
Proof.
  destruct (@X12_missing_column_stops_every_entry_point MoreExamples.schema_world
              MoreExamples.a_dataframe VNone (VBool true)
              DEFAULT_ACTIVITY_KEY DEFAULT_TIMESTAMP_KEY DEFAULT_CASE_ID_KEY
              MoreExamples.missing_column
              eq_refl eq_refl eq_refl eq_refl eq_refl)
    as (_ & _ & E & _).
  rewrite E. reflexivity.
Defined.

Lemma X13_tree_cascade_failure_witness :
  result (@__check_is_fit_process_tree MoreExamples.failing_replay_world
            Examples.trace_AB Examples.a_tree)
  = Raise MoreExamples.replay_error.
Proof.
  assert (R : @footprints_report MoreExamples.failing_replay_world
                Examples.trace_AB Examples.a_tree (VBool true)
                [Call discover_footprints [Examples.a_tree] [];
                 Call discover_footprints [single_trace_log Examples.trace_AB] [];
                 Call footprints_conformance_apply
                   [VSeq CList [VMap CDict []]; VMap CDict []]
                   [("variant", VEnum "footprints_conformance.Variants.TRACE_EXTENSIVE")]]).
  { unfold footprints_report. do 5 eexists.
    repeat match goal with |- _ /\ _ => split end; reflexivity. }
  assert (Tn : @tree_as_net MoreExamples.failing_replay_world Examples.a_tree
                 Examples.a_net Examples.an_im Examples.a_fm)
    by (eexists; split; reflexivity).
  assert (Rp : exists t,
             @conformance_diagnostics_token_based_replay
               MoreExamples.failing_replay_world
               (single_trace_log Examples.trace_AB)
               Examples.a_net Examples.an_im Examples.a_fm
               DEFAULT_ACTIVITY_KEY DEFAULT_TIMESTAMP_KEY DEFAULT_CASE_ID_KEY
             = (Raise MoreExamples.replay_error, t))
    by (eexists; reflexivity).
  destruct Rp as [t_tbr Rp].
  destruct (@X13_tree_cascade_propagates_replay_failure
              MoreExamples.failing_replay_world
              Examples.trace_AB Examples.a_tree VNone (VBool true)
              Examples.a_net Examples.an_im Examples.a_fm _ t_tbr
              MoreExamples.replay_error eq_refl R eq_refl Tn Rp) as [E _].
  rewrite E. reflexivity.
Defined.

Lemma X14_net_cascade_failure_witness :
  result (@__check_is_fit_petri_net MoreExamples.failing_replay_world
            Examples.trace_AB Examples.a_net Examples.an_im Examples.a_fm
            "concept:name")
  = Raise MoreExamples.replay_error.
Proof.
  assert (Rp : exists t,
             @conformance_diagnostics_token_based_replay
               MoreExamples.failing_replay_world
               (single_trace_log Examples.trace_AB)
               Examples.a_net Examples.an_im Examples.a_fm
               DEFAULT_ACTIVITY_KEY DEFAULT_TIMESTAMP_KEY DEFAULT_CASE_ID_KEY
             = (Raise MoreExamples.replay_error, t))
    by (eexists; reflexivity).
  destruct Rp as [t_tbr Rp].
  assert (Hall : forall a, In a [VStr "A"; VStr "B"] ->
                           existsb (hash_eqb a) [VStr "A"; VStr "B"] = true)
    by (intros a [<- | [<- | []]]; reflexivity).
  destruct (@X14_net_cascade_propagates_replay_failure
              MoreExamples.failing_replay_world
              Examples.trace_AB Examples.a_net Examples.an_im Examples.a_fm VNone
              "concept:name" [VStr "A"; VStr "B"] [VStr "A"; VStr "B"] t_tbr
              MoreExamples.replay_error eq_refl eq_refl eq_refl Hall Rp) as [E _].
  rewrite E. reflexivity.
Defined.

Lemma X17_inexact_tree_witness :
  isinstance MoreExamples.my_tree CProcessTree = true
  /\ @never_calls pyval PROCESS_TREE_ALIGNMENTS
       (@__check_is_fit_process_tree (Examples.cascade_world true false (Fin 1%Q))
          Examples.trace_AB MoreExamples.my_tree).
Proof.
  split; [ reflexivity | ].
  apply (@X17_inexact_tree_is_not_aligned_as_a_tree
           (Examples.cascade_world true false (Fin 1%Q))
           Examples.trace_AB MoreExamples.my_tree eq_refl).
Defined.

Lemma X18_check_is_fitting_none_witness :
  @check_is_fitting MoreExamples.odd_conversion_world
    [Examples.trace_AB; Examples.a_bpmn] "concept:name"
  = (Ok VNone, [Call convert_to_process_tree [Examples.a_bpmn] []]).
Proof.
  apply (@X18_check_is_fitting_returns_none MoreExamples.odd_conversion_world
           Examples.trace_AB [Examples.a_bpmn] "concept:name" (VStr "not a model")).
  - reflexivity.
  - left. split; reflexivity.
  - reflexivity.
  - left. reflexivity.
Defined.

Lemma X19_structured_trace_on_the_net_path_witness :
  let W := Examples.cascade_world true true (Fin 1%Q) in
  let model := [Examples.a_net; Examples.an_im; Examples.a_fm] in
  @check_is_fitting W (Examples.trace_AB :: model) "concept:name"
  = (Ok (VBool true),
     [Call convert_to_process_tree model []; Call convert_to_petri_net model []]
     ++ calls (@__check_is_fit_petri_net W Examples.trace_AB
                 Examples.a_net Examples.an_im Examples.a_fm "concept:name")).
Proof.
  intros W model.
  assert (Co : @coerced W model
                 (VSeq CTuple [Examples.a_net; Examples.an_im; Examples.a_fm])
                 [Call convert_to_process_tree model [];
                  Call convert_to_petri_net model []]).
  { right. eexists. repeat split; reflexivity. }
  rewrite (@X19_structured_trace_on_the_net_path W Examples.trace_AB model
             "concept:name" _ Examples.a_net Examples.an_im Examples.a_fm _
             eq_refl Co eq_refl eq_refl eq_refl eq_refl eq_refl eq_refl).
  reflexivity.
Defined.

Lemma X20_event_without_activity_witness :
  @__check_is_fit_petri_net Examples.quiet_world MoreExamples.trace_with_gap
    Examples.a_net Examples.an_im Examples.a_fm "concept:name"
  = (Raise (Exc EKeyError [VStr "concept:name"]),
     [Call event_log_deprecation_warning [MoreExamples.trace_with_gap] []]).
Proof.
  apply (@X20_event_without_activity_raises_KeyError Examples.quiet_world
           MoreExamples.trace_with_gap
           Examples.a_net Examples.an_im Examples.a_fm VNone "concept:name"
           [VStr "A"; VStr "B"] [VStr "A"]
           [VMap CEvent [(VStr "concept:name", VStr "A")]] []
           CEvent [(VStr "time:timestamp", VInt 3)]);
    [ left | .. ]; reflexivity.
Defined.

Lemma X21_silent_transitions_witness :
  model_activities Examples.a_net = Ok [VStr "A"; VStr "B"].
Proof.
  apply (@X21_silent_transitions_are_ignored Examples.a_net
           (VSeq CSet [VObj CTransition 11 [("label", VStr "A")];
                       VObj CTransition 12 [("label", VNone)];
                       VObj CTransition 13 [("label", VStr "B")]])
           [VObj CTransition 11 [("label", VStr "A")];
            VObj CTransition 12 [("label", VNone)];
            VObj CTransition 13 [("label", VStr "B")]]
           [VStr "A"; VNone; VStr "B"]).
  - reflexivity.
  - reflexivity.
  - repeat constructor.
  - reflexivity.
Defined.

Lemma X22_promoted_trace_witness :
  trace_activities (promote_variant "org:activity" [VStr "A"; VStr "B"])
    "org:activity"
  = Ok [VStr "A"; VStr "B"]
  /\ trace_activities
       (promote_variant "org:activity" [VStr "A"; VSeq CList [VStr "B"]; VMap CDict []])
       "org:activity"
     = Raise (Exc ETypeError [VStr "unhashable type: 'list'"])
  /\ trace_activities
       (promote_variant "org:activity" [VStr "A"; VMap CDict []; VSeq CList []])
       "org:activity"
     = Raise (Exc ETypeError [VStr "unhashable type: 'dict'"]).
Proof.
  split; [ | split ].
  - apply (X22_promoted_trace_gives_back_the_activities "org:activity"
             [VStr "A"; VStr "B"]). reflexivity.
  - apply (proj1 (proj2 (X22_promoted_trace_gives_back_the_activities "org:activity"
             [VStr "A"; VSeq CList [VStr "B"]; VMap CDict []]))
             [VStr "A"] [VMap CDict []] [VStr "B"]); reflexivity.
  - apply (proj2 (proj2 (X22_promoted_trace_gives_back_the_activities "org:activity"
             [VStr "A"; VMap CDict []; VSeq CList []]))
             [VStr "A"] [VSeq CList []] []); reflexivity.
Defined.

Lemma X23_integral_solutions_witness :
  scipy_solver.get_prim_obj_from_sol MoreExamples.an_integral_solution VNone
  = Ok (VInt 7)
  /\ scipy_solver.get_points_from_sol MoreExamples.an_integral_solution VNone
     = Ok (VSeq CList [VInt 3; VInt (-4); VInt 0]).
Proof.
  apply (@X23_integral_solutions_are_exact MoreExamples.an_integral_solution VNone
           (VSeq CNdarray [VFloat (Fin (3 # 1)); VFloat (Fin (-4 # 1)); VFloat (Fin 0)])
           7 [3; -4; 0]);
    reflexivity.
Defined.

Lemma X24_precision_footprints_witness :
  map fn (calls (@precision_footprints Examples.quiet_world
                   [VSeq CList [VMap CDict []]; VMap CDict []]))
  = [evaluation_fp_precision].
Proof.
  destruct (@X24_precision_footprints_only_evaluates Examples.quiet_world
              (VSeq CList [VMap CDict []]) (VMap CDict []) eq_refl eq_refl)
    as [E _].
  rewrite E. reflexivity.
Defined.
